(** * IIUC Bus Finder: the student dashboard and the Supabase wrapper

    A shallow embedding of the logic-bearing parts of the portal:
    - [src/pages/StudentDashboard.tsx]: the schedule filter
      ([filteredSchedules]), [fetchData] and [handleComplaintSubmit];
    - [src/lib/supabase.ts]: [signInWithGoogle] and its classification of
      OAuth errors;
    - the Google-profile variant of the Supabase wrapper:
      [signInWithGoogle], [createUserProfileFromGoogle] and
      [handleGoogleCallback].

    JavaScript strings are modelled by [string]; a character stands for one
    code unit in the range 0..255.  The case mappings [toLowerCase] and
    [toUpperCase] are Unicode tables of the JavaScript engine: they are
    taken as parameters, so every statement holds for whatever mapping the
    engine implements; [ascii_toLowerCase] and [ascii_toUpperCase] are the
    instances used to evaluate examples. *)

From Stdlib Require Import Ascii String List Bool Arith Lia.
From stdpp Require Import base option list gmap strings fin_maps.

Local Open Scope bool_scope.

(* ===================================================================== *)
(** * Part I: definitions                                                 *)
(* ===================================================================== *)

(** ** JavaScript strings *)

Module JS.

(** Truthiness of a string value: every string but the empty one is truthy. *)
Definition truthy (s : string) : bool := negb (String.eqb s EmptyString).

(** Truthiness of a value that may be [undefined] or [null]. *)
Definition truthy_opt (o : option string) : bool :=
  match o with
  | Some s => truthy s
  | None => false
  end.

(** [a || b || c] on values that may be undefined, with a string literal
    as the last alternative. *)
Definition or_else (o : option string) (dflt : string) : string :=
  match o with
  | Some s => if truthy s then s else dflt
  | None => dflt
  end.

Definition or_opt (o1 o2 : option string) : option string :=
  if truthy_opt o1 then o1 else o2.

(** [s.startsWith(p)], the test [includes] makes at every position. *)
Fixpoint startsWith (s p : string) {struct p} : bool :=
  match p, s with
  | EmptyString, _ => true
  | String _ _, EmptyString => false
  | String a p', String b s' => Ascii.eqb a b && startsWith s' p'
  end.

(** [s.includes(sub)]: [sub] occurs in [s] at some position. *)
Fixpoint includes (s sub : string) {struct s} : bool :=
  startsWith s sub ||
  match s with
  | EmptyString => false
  | String _ s' => includes s' sub
  end.

(** [o?.includes(sub)] followed by a test for truthiness: an undefined
    receiver gives [undefined], which is falsy. *)
Definition includes_opt (o : option string) (sub : string) : bool :=
  match o with
  | Some s => includes s sub
  | None => false
  end.

(** The white space and line terminators that [trim] strips, among the
    code units 0..255: TAB, LF, VT, FF, CR, SPACE and NBSP. *)
Definition isWhiteSpace (c : ascii) : bool :=
  let n := nat_of_ascii c in
  (9 <=? n) && (n <=? 13) || (n =? 32) || (n =? 160).

Fixpoint trimStart (s : string) : string :=
  match s with
  | EmptyString => EmptyString
  | String c s' => if isWhiteSpace c then trimStart s' else s
  end.

Fixpoint trimEnd (s : string) : string :=
  match s with
  | EmptyString => EmptyString
  | String c s' =>
      match trimEnd s' with
      | EmptyString => if isWhiteSpace c then EmptyString else String c EmptyString
      | t => String c t
      end
  end.

Definition trim (s : string) : string := trimEnd (trimStart s).

(** [s.substring(start, end)]: the arguments are swapped when
    [start > end] and clamped to the length of [s]. *)
Definition substring (s : string) (start end_ : nat) : string :=
  let lo := Nat.min start end_ in
  let hi := Nat.max start end_ in
  String.substring lo (hi - lo) s.

(** A template literal prints an undefined value as [undefined]. *)
Definition interpolate (o : option string) : string :=
  match o with
  | Some s => s
  | None => "undefined"
  end.

(** ASCII case mappings, the instances used in the examples. *)
Definition ascii_lower (c : ascii) : ascii :=
  let n := nat_of_ascii c in
  if (65 <=? n) && (n <=? 90) then ascii_of_nat (n + 32) else c.

Definition ascii_upper (c : ascii) : ascii :=
  let n := nat_of_ascii c in
  if (97 <=? n) && (n <=? 122) then ascii_of_nat (n - 32) else c.

Fixpoint map_string (f : ascii -> ascii) (s : string) : string :=
  match s with
  | EmptyString => EmptyString
  | String c s' => String (f c) (map_string f s')
  end.

Definition ascii_toLowerCase : string -> string := map_string ascii_lower.
Definition ascii_toUpperCase : string -> string := map_string ascii_upper.

(** What [includes] is meant to decide: [sub] is a contiguous part of
    [s]. *)
Definition IsSubstring (sub s : string) : Prop :=
  exists pre post : string, s = pre +:+ sub +:+ post.

End JS.

(** ** Records of the data model *)

(** The record a schedule card shows.  Its declaration
    ([types/BusSchedule]) is not among the sources; the fields are those of
    the object literal that [fetchData] builds for every database row. *)
Module BusSchedule.
Record t : Type := mk {
  id : string;
  time : string;
  startingPoint : string;
  route : string;
  endPoint : string;
  direction : string;
  gender : option string;
  busType : option string;
  remarks : option string;
  description : option string;
  scheduleType : string
}.
End BusSchedule.

(** ** The schedule filter of the student dashboard *)

Section ScheduleFilter.

Variable toLowerCase : string -> string.

(** [matchesSearch] of the callback of [filteredSchedules]. *)
Definition matchesSearch (searchTerm : string) (schedule : BusSchedule.t) : bool :=
  String.eqb searchTerm EmptyString ||
  JS.includes (toLowerCase (BusSchedule.time schedule)) (toLowerCase searchTerm) ||
  JS.includes (toLowerCase (BusSchedule.startingPoint schedule)) (toLowerCase searchTerm) ||
  JS.includes (toLowerCase (BusSchedule.route schedule)) (toLowerCase searchTerm) ||
  JS.includes (toLowerCase (BusSchedule.endPoint schedule)) (toLowerCase searchTerm).

(** [matchesFilter] of the same callback; [filterType] is the value of
    the select box. *)
Definition matchesFilter (filterType : string) (schedule : BusSchedule.t) : bool :=
  String.eqb filterType "all" ||
  (String.eqb filterType "regular" && String.eqb (BusSchedule.scheduleType schedule) "Regular") ||
  (String.eqb filterType "friday" && String.eqb (BusSchedule.scheduleType schedule) "Friday").

Definition filterCallback (searchTerm filterType : string) (schedule : BusSchedule.t) : bool :=
  matchesSearch searchTerm schedule && matchesFilter filterType schedule.

(** [schedules.filter(schedule => ...)]. *)
Definition filteredSchedules (schedules : list BusSchedule.t)
    (searchTerm filterType : string) : list BusSchedule.t :=
  List.filter (filterCallback searchTerm filterType) schedules.

End ScheduleFilter.

(** What the filter is specified to keep, in the words of the
    specification: a schedule matches the search when the term is empty or
    the lowercased term is a substring of one of the four lowercased
    fields, and matches the category when the filter is [all], or
    [regular] on a [Regular] schedule, or [friday] on a [Friday] one. *)
Definition matchesSearch_spec (toLowerCase : string -> string)
    (searchTerm : string) (schedule : BusSchedule.t) : Prop :=
  searchTerm = EmptyString \/
  exists field : string,
    In field [BusSchedule.time schedule; BusSchedule.startingPoint schedule;
              BusSchedule.route schedule; BusSchedule.endPoint schedule] /\
    JS.IsSubstring (toLowerCase searchTerm) (toLowerCase field).

Definition matchesFilter_spec (filterType : string) (schedule : BusSchedule.t) : Prop :=
  filterType = "all" \/
  (filterType = "regular" /\ BusSchedule.scheduleType schedule = "Regular") \/
  (filterType = "friday" /\ BusSchedule.scheduleType schedule = "Friday").

(** ** The filter on the JavaScript heap

    [Array.prototype.filter] reads an array object, calls the callback on
    every element and allocates a new array holding the references it
    keeps.  The schedule records are objects too: the result shares them
    with the input.  A dangling reference stands for an element on which
    the callback would raise a [TypeError]. *)

Module Heap.

Record t : Type := mk {
  objects : gmap nat BusSchedule.t;
  arrays : gmap nat (list nat)
}.

(** The records behind a list of references. *)
Fixpoint deref (objs : gmap nat BusSchedule.t) (refs : list nat)
    : option (list BusSchedule.t) :=
  match refs with
  | [] => Some []
  | r :: refs' =>
      match objs !! r, deref objs refs' with
      | Some o, Some os => Some (o :: os)
      | _, _ => None
      end
  end.

(** The contents of the array at [arr]. *)
Definition read (h : t) (arr : nat) : option (list BusSchedule.t) :=
  match arrays h !! arr with
  | Some refs => deref (objects h) refs
  | None => None
  end.

(** The loop of [filter]: the references whose record satisfies the
    callback, in order. *)
Fixpoint keep (callback : BusSchedule.t -> bool) (objs : gmap nat BusSchedule.t)
    (refs : list nat) : option (list nat) :=
  match refs with
  | [] => Some []
  | r :: refs' =>
      match objs !! r with
      | None => None
      | Some o =>
          match keep callback objs refs' with
          | None => None
          | Some kept => Some (if callback o then r :: kept else kept)
          end
      end
  end.

(** [arr.filter(callback)]: the heap afterwards and the address of the
    new array. *)
Definition Array_filter (callback : BusSchedule.t -> bool) (h : t) (arr : nat)
    : option (t * nat) :=
  match arrays h !! arr with
  | None => None
  | Some refs =>
      match keep callback (objects h) refs with
      | None => None
      | Some kept =>
          let fresh_arr := fresh (dom (arrays h)) in
          Some (mk (objects h) (<[fresh_arr := kept]> (arrays h)), fresh_arr)
      end
  end.

End Heap.

(** [filteredSchedules] as the component evaluates it, on the heap. *)
Definition filteredSchedules_on_heap (toLowerCase : string -> string)
    (h : Heap.t) (schedules : nat) (searchTerm filterType : string)
    : option (Heap.t * nat) :=
  Heap.Array_filter (filterCallback toLowerCase searchTerm filterType) h schedules.

(** ** Promises, exceptions and component state

    An awaited promise is fulfilled with a value or rejected with a
    reason; a rejection is an exception at the [await].  A computation
    reads and writes a state of type [S], and what it wrote before an
    exception stays written. *)

Inductive Awaited (A : Type) : Type :=
  | Fulfilled (value : A)
  | Thrown (reason : string).

Arguments Fulfilled {A} value.
Arguments Thrown {A} reason.

Definition Eff (S A : Type) : Type := S -> Awaited A * S.

Module Eff.

Definition ret {S A} (a : A) : Eff S A := fun s => (Fulfilled a, s).

Definition bind {S A B} (c : Eff S A) (k : A -> Eff S B) : Eff S B :=
  fun s =>
    match c s with
    | (Fulfilled a, s') => k a s'
    | (Thrown e, s') => (Thrown e, s')
    end.

Definition throw {S A} (reason : string) : Eff S A := fun s => (Thrown reason, s).

Definition get {S} : Eff S S := fun s => (Fulfilled s, s).

Definition modify {S} (f : S -> S) : Eff S unit := fun s => (Fulfilled tt, f s).

(** [await p] for a promise that has settled as [p]. *)
Definition await {S A} (p : Awaited A) : Eff S A := fun s => (p, s).

(** [try { body } catch (e) { handler(e) }]. *)
Definition try_catch {S A} (body : Eff S A) (handler : string -> Eff S A) : Eff S A :=
  fun s =>
    match body s with
    | (Fulfilled a, s') => (Fulfilled a, s')
    | (Thrown e, s') => handler e s'
    end.

(** [try { body } finally { fin }]: [fin] runs on both exits and the
    outcome of [body] is kept unless [fin] throws itself. *)
Definition try_finally {S A} (body : Eff S A) (fin : Eff S unit) : Eff S A :=
  fun s =>
    match body s with
    | (r, s') =>
        match fin s' with
        | (Fulfilled _, s'') => (r, s'')
        | (Thrown e, s'') => (Thrown e, s'')
        end
    end.

End Eff.

Declare Scope eff_scope.
Delimit Scope eff_scope with eff.

Notation "x <- c1 ;; c2" := (Eff.bind c1 (fun x => c2))
  (at level 100, c1 at next level, right associativity) : eff_scope.
Notation "c1 ;; c2" := (Eff.bind c1 (fun _ => c2))
  (at level 100, right associativity) : eff_scope.

(** ** Database rows ([src/lib/supabase.ts], "Database types") *)

Module Gender.
Inductive t : Type := Male | Female.
Definition to_string (g : t) : string :=
  match g with Male => "Male" | Female => "Female" end.
End Gender.

Module Role.
Inductive t : Type := student | teacher | admin.
End Role.

Module Category.
Inductive t : Type :=
  delay | safety | driver_behavior | bus_condition | route_issue | other.
End Category.

Module Priority.
Inductive t : Type := low | medium | high | urgent.
End Priority.

Module Status.
Inductive t : Type := pending | in_progress | resolved | closed.
End Status.

Module User.
Record t : Type := mk {
  id : string;
  email : string;
  name : string;
  university_id : string;
  mobile : string;
  gender : Gender.t;
  role : Role.t;
  created_at : string
}.
End User.

(** Schedule rows arrive as JSON and are cast with [as any]: the gender
    and the schedule type are kept as the strings the database sent. *)
Module BusScheduleDB.
Record t : Type := mk {
  id : string;
  time : string;
  starting_point : string;
  route : string;
  end_point : string;
  direction : string;
  gender : option string;
  bus_type : option string;
  remarks : option string;
  description : option string;
  schedule_type : string;
  created_at : string
}.
End BusScheduleDB.

Module Feedback.
Record t : Type := mk {
  id : string;
  user_id : string;
  message : string;
  created_at : string;
  user : option User.t
}.
End Feedback.

Module Complaint.
Record t : Type := mk {
  id : string;
  user_id : string;
  title : string;
  description : string;
  category : Category.t;
  priority : Priority.t;
  status : Status.t;
  bus_route : option string;
  incident_time : option string;
  created_at : string;
  resolved_at : option string;
  admin_response : option string;
  user : option User.t
}.
End Complaint.

(** The error object of a database call and the [{ data, error }] pair
    every call of the SDK resolves to. *)
Module PostgrestError.
Record t : Type := mk { message : string; code : string }.
End PostgrestError.

Module QueryResult.
Record t (A : Type) : Type := mk {
  data : option A;
  error : option PostgrestError.t
}.
Arguments mk {A} data error.
Arguments data {A} _.
Arguments error {A} _.
End QueryResult.

(** ** The student dashboard ([src/pages/StudentDashboard.tsx]) *)

Module ComplaintForm.
Record t : Type := mk {
  title : string;
  description : string;
  category : Category.t;
  priority : Priority.t;
  bus_route : string;
  incident_time : string
}.

(** The initial value of the [complaintForm] state, which is also the
    value the form is reset to. *)
Definition initial : t :=
  mk EmptyString EmptyString Category.other Priority.medium EmptyString EmptyString.
End ComplaintForm.

(** The object passed to [insert] on the [complaints] table. *)
Module ComplaintInsert.
Record t : Type := mk {
  user_id : option string;
  title : string;
  description : string;
  category : Category.t;
  priority : Priority.t;
  bus_route : option string;
  incident_time : option string
}.
End ComplaintInsert.

Module Dashboard.

(** The component state that [fetchData] and [handleComplaintSubmit]
    read or write. *)
Record State : Type := mkState {
  schedules : list BusSchedule.t;
  feedback : list Feedback.t;
  complaints : list Complaint.t;
  loading : bool;
  showComplaintForm : bool;
  complaintForm : ComplaintForm.t;
  complaintLoading : bool;
  complaintSuccess : string;
  complaintError : string
}.

(** What the component asks of the outside world, in the order asked. *)
Inductive Request : Type :=
  | SelectSchedules (or_filter : string)
  | SelectFeedback (user_id : option string)
  | SelectComplaints (user_id : option string)
  | InsertComplaint (row : ComplaintInsert.t)
  | SetTimeout_clearComplaintSuccess (ms : nat).

Record World : Type := mkWorld {
  state : State;
  requests : list Request
}.

(** How the database answers each request of one run. *)
Record Backend : Type := mkBackend {
  schedules_response : Awaited (QueryResult.t (list BusScheduleDB.t));
  feedback_response : Awaited (QueryResult.t (list Feedback.t));
  complaints_response : Awaited (QueryResult.t (list Complaint.t));
  complaint_insert_response : Awaited (QueryResult.t (list Complaint.t))
}.

Definition update (f : State -> State) : Eff World unit :=
  Eff.modify (fun w => mkWorld (f (state w)) (requests w)).

Definition setSchedules (v : list BusSchedule.t) : Eff World unit :=
  update (fun s => mkState v (feedback s) (complaints s) (loading s)
    (showComplaintForm s) (complaintForm s) (complaintLoading s)
    (complaintSuccess s) (complaintError s)).

Definition setFeedback (v : list Feedback.t) : Eff World unit :=
  update (fun s => mkState (schedules s) v (complaints s) (loading s)
    (showComplaintForm s) (complaintForm s) (complaintLoading s)
    (complaintSuccess s) (complaintError s)).

Definition setComplaints (v : list Complaint.t) : Eff World unit :=
  update (fun s => mkState (schedules s) (feedback s) v (loading s)
    (showComplaintForm s) (complaintForm s) (complaintLoading s)
    (complaintSuccess s) (complaintError s)).

Definition setLoading (v : bool) : Eff World unit :=
  update (fun s => mkState (schedules s) (feedback s) (complaints s) v
    (showComplaintForm s) (complaintForm s) (complaintLoading s)
    (complaintSuccess s) (complaintError s)).

Definition setShowComplaintForm (v : bool) : Eff World unit :=
  update (fun s => mkState (schedules s) (feedback s) (complaints s) (loading s)
    v (complaintForm s) (complaintLoading s)
    (complaintSuccess s) (complaintError s)).

Definition setComplaintForm (v : ComplaintForm.t) : Eff World unit :=
  update (fun s => mkState (schedules s) (feedback s) (complaints s) (loading s)
    (showComplaintForm s) v (complaintLoading s)
    (complaintSuccess s) (complaintError s)).

Definition setComplaintLoading (v : bool) : Eff World unit :=
  update (fun s => mkState (schedules s) (feedback s) (complaints s) (loading s)
    (showComplaintForm s) (complaintForm s) v
    (complaintSuccess s) (complaintError s)).

Definition setComplaintSuccess (v : string) : Eff World unit :=
  update (fun s => mkState (schedules s) (feedback s) (complaints s) (loading s)
    (showComplaintForm s) (complaintForm s) (complaintLoading s)
    v (complaintError s)).

Definition setComplaintError (v : string) : Eff World unit :=
  update (fun s => mkState (schedules s) (feedback s) (complaints s) (loading s)
    (showComplaintForm s) (complaintForm s) (complaintLoading s)
    (complaintSuccess s) v).

(** Send a request and await its answer. *)
Definition request {A} (r : Request) (answer : Awaited A) : Eff World A :=
  fun w => (answer, mkWorld (state w) (requests w ++ [r])).

(** The object literal [fetchData] maps every schedule row to. *)
Definition convertSchedule (schedule : BusScheduleDB.t) : BusSchedule.t :=
  BusSchedule.mk
    (BusScheduleDB.id schedule)
    (BusScheduleDB.time schedule)
    (BusScheduleDB.starting_point schedule)
    (BusScheduleDB.route schedule)
    (BusScheduleDB.end_point schedule)
    (BusScheduleDB.direction schedule)
    (BusScheduleDB.gender schedule)
    (BusScheduleDB.bus_type schedule)
    (BusScheduleDB.remarks schedule)
    (BusScheduleDB.description schedule)
    (BusScheduleDB.schedule_type schedule).

Section Handlers.

Variable userProfile : option User.t.
Variable backend : Backend.

Local Open Scope eff_scope.

(** [userProfile?.id] *)
Definition userProfile_id : option string := User.id <$> userProfile.

(** [`gender.is.null,gender.eq.${userProfile?.gender}`] *)
Definition gender_filter : string :=
  "gender.is.null,gender.eq." +:+
  JS.interpolate (Gender.to_string <$> (User.gender <$> userProfile)).

Definition fetchData : Eff World unit :=
  Eff.try_finally
    (Eff.try_catch
      (setLoading true ;;
       r <- request (SelectSchedules gender_filter) (schedules_response backend) ;;
       match QueryResult.error r with
       | Some _ => Eff.ret tt
       | None =>
           match QueryResult.data r with
           | None => Eff.throw "TypeError: schedulesData is null"
           | Some schedulesData => setSchedules (map convertSchedule schedulesData)
           end
       end ;;
       r <- request (SelectFeedback userProfile_id) (feedback_response backend) ;;
       match QueryResult.error r with
       | Some _ => Eff.ret tt
       | None => setFeedback (default [] (QueryResult.data r))
       end ;;
       r <- request (SelectComplaints userProfile_id) (complaints_response backend) ;;
       match QueryResult.error r with
       | Some _ => Eff.ret tt
       | None => setComplaints (default [] (QueryResult.data r))
       end)
      (fun _ => Eff.ret tt))
    (setLoading false).

(** [s.trim() || null] *)
Definition trim_or_null (s : string) : option string :=
  if JS.truthy (JS.trim s) then Some (JS.trim s) else None.

(** The row [handleComplaintSubmit] inserts for a form. *)
Definition complaintRow (form : ComplaintForm.t) : ComplaintInsert.t :=
  ComplaintInsert.mk
    userProfile_id
    (JS.trim (ComplaintForm.title form))
    (JS.trim (ComplaintForm.description form))
    (ComplaintForm.category form)
    (ComplaintForm.priority form)
    (trim_or_null (ComplaintForm.bus_route form))
    (trim_or_null (ComplaintForm.incident_time form)).

(** [handleComplaintSubmit]; [form] is the [complaintForm] of the
    render the handler was created in. *)
Definition handleComplaintSubmit : Eff World unit :=
  w <- Eff.get ;;
  let form := complaintForm (state w) in
  setComplaintError EmptyString ;;
  setComplaintSuccess EmptyString ;;
  if negb (JS.truthy (JS.trim (ComplaintForm.title form))) then
    setComplaintError "Please provide a title for your complaint"
  else if negb (JS.truthy (JS.trim (ComplaintForm.description form))) then
    setComplaintError "Please provide a detailed description of the issue"
  else if String.length (JS.trim (ComplaintForm.description form)) <? 10 then
    setComplaintError
      "Please provide a more detailed description (at least 10 characters)"
  else
    setComplaintLoading true ;;
    Eff.try_finally
      (Eff.try_catch
        (r <- request (InsertComplaint (complaintRow form))
               (complaint_insert_response backend) ;;
         match QueryResult.error r with
         | Some error =>
             setComplaintError
               ("Failed to submit complaint: " +:+ PostgrestError.message error)
         | None =>
             setComplaintForm ComplaintForm.initial ;;
             setComplaintSuccess
               "Your complaint has been submitted successfully! We will review it and get back to you soon." ;;
             setShowComplaintForm false ;;
             fetchData ;;
             request (SetTimeout_clearComplaintSuccess 5000) (Fulfilled tt)
         end)
        (fun _ => setComplaintError "An unexpected error occurred. Please try again."))
      (setComplaintLoading false).

End Handlers.

(** The three guards at the head of [handleComplaintSubmit], taken
    together: the submission goes on to the insert when all pass. *)
Definition passes_validation (form : ComplaintForm.t) : bool :=
  JS.truthy (JS.trim (ComplaintForm.title form))
  && JS.truthy (JS.trim (ComplaintForm.description form))
  && negb (String.length (JS.trim (ComplaintForm.description form)) <? 10).

(** The insert was answered without an error object. *)
Definition insert_succeeds (backend : Backend) : bool :=
  match complaint_insert_response backend with
  | Fulfilled r =>
      match QueryResult.error r with
      | Some _ => false
      | None => true
      end
  | Thrown _ => false
  end.

(** A run of a handler from a state, with an empty request log. *)
Definition run (handler : Eff World unit) (st : State) : Awaited unit * World :=
  handler (mkWorld st []).

Definition state_after (handler : Eff World unit) (st : State) : State :=
  state (snd (run handler st)).

Definition requests_of (handler : Eff World unit) (st : State) : list Request :=
  requests (snd (run handler st)).

(** The handler sent an insert to the [complaints] table. *)
Definition is_insert (r : Request) : bool :=
  match r with
  | InsertComplaint _ => true
  | _ => false
  end.

Definition submitted (handler : Eff World unit) (st : State) : bool :=
  existsb is_insert (requests_of handler st).

End Dashboard.

(** ** Types shared by the copies of the Supabase wrapper *)

Module Auth.

(** [import.meta.env.VITE_SUPABASE_URL] and [..._ANON_KEY]; a variable
    that is not set is [undefined]. *)
Record Config : Type := mkConfig {
  supabaseUrl : option string;
  supabaseAnonKey : option string
}.

(** The negation of
    [!supabaseUrl || !supabaseAnonKey || supabaseUrl === 'https://placeholder.supabase.co']. *)
Definition configured (cfg : Config) : bool :=
  negb (negb (JS.truthy_opt (supabaseUrl cfg))
        || negb (JS.truthy_opt (supabaseAnonKey cfg))
        || match supabaseUrl cfg with
           | Some u => String.eqb u "https://placeholder.supabase.co"
           | None => false
           end).

(** The error object of the auth client; [message] is read with [?.],
    so it may be missing. *)
Record AuthError : Type := mkAuthError { message : option string }.

(** The argument of [supabase.auth.signInWithOAuth]. *)
Record OAuthRequest : Type := mkOAuthRequest {
  provider : string;
  redirectTo : string;
  access_type : string;
  prompt : string;
  hd : option string;
  skipBrowserRedirect : bool
}.

Record OAuthData : Type := mkOAuthData { url : option string }.

Record OAuthResponse : Type := mkOAuthResponse {
  data : OAuthData;
  error : option AuthError
}.

(** The [{ message: ... }] object returned in the [error] field. *)
Record ErrorMessage : Type := mkErrorMessage { text : string }.

(** [{ data?, error?, needsSetup? }] *)
Record SignInResult : Type := mkSignInResult {
  result_data : option OAuthData;
  result_error : option ErrorMessage;
  needsSetup : option bool
}.

(** The state of a sign-in is the list of calls made to the OAuth
    endpoint, oldest first. *)
Definition signInWithOAuth (sdk : OAuthRequest -> Awaited OAuthResponse)
    (req : OAuthRequest) : Eff (list OAuthRequest) OAuthResponse :=
  fun calls => (sdk req, calls ++ [req]).

Definition failure (msg : string) (setup : option bool) : SignInResult :=
  mkSignInResult None (Some (mkErrorMessage msg)) setup.

End Auth.

(** The words of the specification about a sign-in: the error message
    contains a given text, and the attempt failed (the configuration
    check failed, the OAuth call threw, or it returned an error). *)
Definition mentions (error : Auth.AuthError) (sub : string) : Prop :=
  exists m : string, Auth.message error = Some m /\ JS.IsSubstring sub m.

Definition sign_in_fails (cfg : Auth.Config)
    (answer : Awaited Auth.OAuthResponse) : Prop :=
  Auth.configured cfg = false \/
  (exists reason : string, answer = Thrown reason) \/
  (exists (r : Auth.OAuthResponse) (e : Auth.AuthError),
      answer = Fulfilled r /\ Auth.error r = Some e).

(** A failed sign-in is reported by a result without data whose [error]
    holds a message: one of the fixed [texts], or the [generic] text
    built around the message of the error. *)
Definition reports_failure (texts : list string) (generic : option string -> string)
    (result : Auth.SignInResult) : Prop :=
  exists m : string,
    Auth.result_error result = Some (Auth.mkErrorMessage m) /\
    Auth.result_data result = None /\
    (In m texts \/ exists detail : option string, m = generic detail).

(** ** [src/lib/supabase.ts]

    The second copy of this file among the sources differs from it in
    [signInWithGoogle] only by leaving [hd] out of the query parameters. *)

Module Supabase.

Import Auth.

Definition msg_not_configured : string :=
  "Supabase is not properly configured. Please contact the administrator.".
Definition msg_not_enabled : string :=
  "Google Sign-In is not enabled in Supabase. Please contact the administrator to enable the Google OAuth provider in the Supabase dashboard.".
Definition msg_redirect : string :=
  "Google Sign-In redirect URL is not configured properly. Please contact the administrator to add the correct redirect URLs in Supabase.".
Definition msg_client : string :=
  "Google OAuth client is not configured. Please contact the administrator to set up Google OAuth credentials in Supabase.".
Definition msg_invalid : string :=
  "Google OAuth configuration is invalid. Please contact the administrator to verify the Google OAuth settings.".
Definition msg_generic (m : option string) : string :=
  "Google Sign-In failed: " +:+ JS.interpolate m +:+
  ". Please try again or contact support if the issue persists.".
Definition msg_unexpected : string :=
  "An unexpected error occurred with Google Sign-In. Please try again or use email/password login.".

(** The [if (error) { ... }] block of [signInWithGoogle]. *)
Definition classify (error : AuthError) : SignInResult :=
  if JS.includes_opt (message error) "not enabled"
     || JS.includes_opt (message error) "provider" then
    failure msg_not_enabled (Some true)
  else if JS.includes_opt (message error) "redirect"
          || JS.includes_opt (message error) "url" then
    failure msg_redirect (Some true)
  else if JS.includes_opt (message error) "client_id"
          || JS.includes_opt (message error) "client" then
    failure msg_client (Some true)
  else if JS.includes_opt (message error) "unauthorized"
          || JS.includes_opt (message error) "invalid" then
    failure msg_invalid (Some true)
  else
    failure (msg_generic (message error)) None.

Section SignIn.

Variable cfg : Config.
(** [window.location.origin] *)
Variable origin : string.
Variable sdk : OAuthRequest -> Awaited OAuthResponse.

Local Open Scope eff_scope.

Definition oauthRequest : OAuthRequest :=
  mkOAuthRequest "google" (origin +:+ "/login?google=success")
    "offline" "consent" (Some EmptyString) false.

Definition signInWithGoogle : Eff (list OAuthRequest) SignInResult :=
  Eff.try_catch
    (if negb (configured cfg) then
       Eff.ret (failure msg_not_configured (Some true))
     else
       r <- signInWithOAuth sdk oauthRequest ;;
       match error r with
       | Some error => Eff.ret (classify error)
       | None => Eff.ret (mkSignInResult (Some (data r)) None None)
       end)
    (fun _ => Eff.ret (failure msg_unexpected None)).

End SignIn.

(** The classification in the words of the specification: the checks
    are made in the order not enabled/provider, redirect/url,
    client_id/client, unauthorized/invalid; the first that matches
    selects its message together with [needsSetup: true]; a message
    that matches none gives the generic failure without [needsSetup]. *)
Definition classified_by_substring (error : AuthError) (result : SignInResult) : Prop :=
  let c1 := mentions error "not enabled" \/ mentions error "provider" in
  let c2 := mentions error "redirect" \/ mentions error "url" in
  let c3 := mentions error "client_id" \/ mentions error "client" in
  let c4 := mentions error "unauthorized" \/ mentions error "invalid" in
  (c1 -> result = failure msg_not_enabled (Some true)) /\
  (~ c1 -> c2 -> result = failure msg_redirect (Some true)) /\
  (~ c1 -> ~ c2 -> c3 -> result = failure msg_client (Some true)) /\
  (~ c1 -> ~ c2 -> ~ c3 -> c4 -> result = failure msg_invalid (Some true)) /\
  (~ c1 -> ~ c2 -> ~ c3 -> ~ c4 ->
   result = failure (msg_generic (message error)) None).

End Supabase.

(** ** The copy of the wrapper with profile creation

    This copy of the Supabase wrapper adds [createUserProfileFromGoogle]
    and [handleGoogleCallback]; its [signInWithGoogle] asks for
    [select_account], words its messages differently and has no check for
    [unauthorized] or [invalid]. *)

Module GoogleProfile.

Import Auth.

Definition msg_not_configured : string :=
  "Supabase is not properly configured. Please contact the administrator.".
Definition msg_not_enabled : string :=
  "Google Sign-In is not enabled. Please contact the administrator to enable Google OAuth in Supabase.".
Definition msg_redirect : string :=
  "Google Sign-In redirect URL is not configured properly. Please contact the administrator.".
Definition msg_client : string :=
  "Google OAuth client is not configured. Please contact the administrator.".
Definition msg_generic (m : option string) : string :=
  "Google Sign-In failed: " +:+ JS.interpolate m +:+
  ". Please try again or contact support.".
Definition msg_unexpected : string :=
  "An unexpected error occurred with Google Sign-In. Please try again or use email/password login.".

Definition classify (error : AuthError) : SignInResult :=
  if JS.includes_opt (message error) "not enabled"
     || JS.includes_opt (message error) "provider" then
    failure msg_not_enabled (Some true)
  else if JS.includes_opt (message error) "redirect"
          || JS.includes_opt (message error) "url" then
    failure msg_redirect (Some true)
  else if JS.includes_opt (message error) "client_id"
          || JS.includes_opt (message error) "client" then
    failure msg_client (Some true)
  else
    failure (msg_generic (message error)) None.

Section SignIn.

Variable cfg : Config.
Variable origin : string.
Variable sdk : OAuthRequest -> Awaited OAuthResponse.

Local Open Scope eff_scope.

Definition oauthRequest : OAuthRequest :=
  mkOAuthRequest "google" (origin +:+ "/login?google=success")
    "offline" "select_account" None false.

Definition signInWithGoogle : Eff (list OAuthRequest) SignInResult :=
  Eff.try_catch
    (if negb (configured cfg) then
       Eff.ret (failure msg_not_configured (Some true))
     else
       r <- signInWithOAuth sdk oauthRequest ;;
       match error r with
       | Some error => Eff.ret (classify error)
       | None => Eff.ret (mkSignInResult (Some (data r)) None None)
       end)
    (fun _ => Eff.ret (failure msg_unexpected None)).

End SignIn.

(** *** The user of a session *)

Record Metadata : Type := mkMetadata {
  full_name : option string;
  name : option string
}.

(** [user.user_metadata || {}] *)
Definition no_metadata : Metadata := mkMetadata None None.

Record AuthUser : Type := mkAuthUser {
  id : string;
  email : option string;
  user_metadata : option Metadata
}.

Record Session : Type := mkSession { user : option AuthUser }.

(** What [supabase.auth.getSession()] resolves to. *)
Record SessionResponse : Type := mkSessionResponse {
  session : option Session;
  sessionError : option AuthError
}.

(** [profileData], the row written to the [users] table.  The column
    [created_at] is filled in by the database and never read here. *)
Record ProfileData : Type := mkProfileData {
  profile_id : string;
  profile_email : option string;
  profile_name : string;
  profile_university_id : string;
  profile_mobile : string;
  profile_gender : Gender.t;
  profile_role : Role.t
}.

(** The value of an [error] field: whatever was caught or returned. *)
Inductive ErrorValue : Type :=
  | OfAuth (e : AuthError)
  | OfDatabase (e : PostgrestError.t)
  | OfMessage (m : string)
  | OfException (reason : string).

Record ProfileResult : Type := mkProfileResult {
  profile_success : bool;
  profile_error : option ErrorValue
}.

Record CallbackResult : Type := mkCallbackResult {
  success : bool;
  callback_user : option AuthUser;
  callback_error : option ErrorValue
}.

(** *** The backend

    The [users] table is a finite map from the primary key [id] to the
    row.  A call is answered from the table unless the backend fails on
    it: with an error object of its own ([Failing]) or by rejecting the
    promise ([Rejecting]). *)

Inductive Fault : Type :=
  | Failing (e : PostgrestError.t)
  | Rejecting (reason : string).

Inductive Request : Type :=
  | GetSession
  | SelectUser (id : string)
  | InsertUser (row : ProfileData).

Record World : Type := mkWorld {
  users : gmap string ProfileData;
  log : list Request
}.

Record Backend : Type := mkBackend {
  getSession_response : Awaited SessionResponse;
  select_fault : option Fault;
  insert_fault : option Fault
}.

(** The request touches the [users] table. *)
Definition on_users (r : Request) : bool :=
  match r with
  | GetSession => false
  | SelectUser _ | InsertUser _ => true
  end.

Definition is_insert (r : Request) : bool :=
  match r with
  | InsertUser _ => true
  | _ => false
  end.

(** [.single()] on an empty result. *)
Definition PGRST116 : PostgrestError.t :=
  PostgrestError.mk "JSON object requested, multiple (or no) rows returned" "PGRST116".

(** A second row with the same primary key. *)
Definition duplicate_key : PostgrestError.t :=
  PostgrestError.mk "duplicate key value violates unique constraint" "23505".

Definition record (r : Request) (w : World) : World :=
  mkWorld (users w) (log w ++ [r]).

Section Handlers.

Variable toUpperCase : string -> string.
Variable backend : Backend.

Local Open Scope eff_scope.

Definition getSession : Eff World SessionResponse :=
  fun w => (getSession_response backend, record GetSession w).

(** [from('users').select('*').eq('id', id).single()] *)
Definition select_user (id : string) : Eff World (QueryResult.t ProfileData) :=
  fun w =>
    let w' := record (SelectUser id) w in
    match select_fault backend with
    | Some (Rejecting reason) => (Thrown reason, w')
    | Some (Failing e) => (Fulfilled (QueryResult.mk None (Some e)), w')
    | None =>
        match users w !! id with
        | Some row => (Fulfilled (QueryResult.mk (Some row) None), w')
        | None => (Fulfilled (QueryResult.mk None (Some PGRST116)), w')
        end
    end.

(** [from('users').insert([row]).select().single()] *)
Definition insert_user (row : ProfileData) : Eff World (QueryResult.t ProfileData) :=
  fun w =>
    let w' := record (InsertUser row) w in
    match insert_fault backend with
    | Some (Rejecting reason) => (Thrown reason, w')
    | Some (Failing e) => (Fulfilled (QueryResult.mk None (Some e)), w')
    | None =>
        match users w !! profile_id row with
        | Some _ => (Fulfilled (QueryResult.mk None (Some duplicate_key)), w')
        | None =>
            (Fulfilled (QueryResult.mk (Some row) None),
             mkWorld (<[profile_id row := row]> (users w)) (log w'))
        end
    end.

(** The object literal [profileData]. *)
Definition profileData (user : AuthUser) : ProfileData :=
  let googleData := default no_metadata (user_metadata user) in
  let email := email user in
  let fullName :=
    JS.or_else (JS.or_opt (full_name googleData) (name googleData)) "Google User" in
  let tempUniversityId :=
    "GOOGLE_" +:+ toUpperCase (JS.substring (id user) 0 8) in
  mkProfileData (id user) email fullName tempUniversityId
    EmptyString Gender.Male Role.student.

Definition createUserProfileFromGoogle (user : AuthUser) : Eff World ProfileResult :=
  Eff.try_catch
    (r <- insert_user (profileData user) ;;
     match QueryResult.error r with
     | Some error => Eff.ret (mkProfileResult false (Some (OfDatabase error)))
     | None => Eff.ret (mkProfileResult true None)
     end)
    (fun error => Eff.ret (mkProfileResult false (Some (OfException error)))).

(** [profileError && profileError.code !== 'PGRST116'] *)
Definition blocking (profileError : option PostgrestError.t) : bool :=
  match profileError with
  | Some e => negb (String.eqb (PostgrestError.code e) "PGRST116")
  | None => false
  end.

Definition handleGoogleCallback : Eff World CallbackResult :=
  Eff.try_catch
    (r <- getSession ;;
     match sessionError r with
     | Some sessionError =>
         Eff.ret (mkCallbackResult false None (Some (OfAuth sessionError)))
     | None =>
         match session r ≫= user with
         | None =>
             Eff.ret (mkCallbackResult false None (Some (OfMessage "No session found")))
         | Some user =>
             q <- select_user (id user) ;;
             if blocking (QueryResult.error q) then
               Eff.ret (mkCallbackResult false None
                          (OfDatabase <$> QueryResult.error q))
             else
               match QueryResult.data q with
               | None =>
                   p <- createUserProfileFromGoogle user ;;
                   if negb (profile_success p) then
                     Eff.ret (mkCallbackResult false None (profile_error p))
                   else
                     Eff.ret (mkCallbackResult true (Some user) None)
               | Some _ =>
                   Eff.ret (mkCallbackResult true (Some user) None)
               end
         end
     end)
    (fun error => Eff.ret (mkCallbackResult false None (Some (OfException error)))).

End Handlers.

(** The words of the specification about the metadata of a user: a
    field is present when it holds a non-empty string, the only values
    [||] does not skip, and absent otherwise. *)
Definition present (field : option string) (value : string) : Prop :=
  field = Some value /\ value <> EmptyString.

Definition absent (field : option string) : Prop :=
  field = None \/ field = Some EmptyString.

Definition metadata_of (user : AuthUser) : Metadata :=
  default no_metadata (user_metadata user).

(** The session holds this user. *)
Definition session_of (backend : Backend) (user : AuthUser) : Prop :=
  exists (r : SessionResponse) (s : Session),
    getSession_response backend = Fulfilled r /\
    sessionError r = None /\
    session r = Some s /\
    GoogleProfile.user s = Some user.

(** There is no session, or it holds no user. *)
Definition no_session (backend : Backend) : Prop :=
  exists r : SessionResponse,
    getSession_response backend = Fulfilled r /\
    session r ≫= GoogleProfile.user = None.

(** The backend answers the calls on the [users] table from the table. *)
Definition healthy (backend : Backend) : Prop :=
  select_fault backend = None /\ insert_fault backend = None.

End GoogleProfile.

(** ** Words for the statements about the two copies and the refresh *)

(** The classification of the copy with profile creation, in the words
    used for [src/lib/supabase.ts]: the checks are made in the order not
    enabled/provider, redirect/url, client_id/client; the first that
    matches selects the text of this copy together with
    [needsSetup: true]; every other message, one that contains
    [unauthorized] or [invalid] included, gives the generic failure of
    this copy without [needsSetup]. *)
Definition profile_classified_by_substring
    (error : Auth.AuthError) (result : Auth.SignInResult) : Prop :=
  let c1 := mentions error "not enabled" \/ mentions error "provider" in
  let c2 := mentions error "redirect" \/ mentions error "url" in
  let c3 := mentions error "client_id" \/ mentions error "client" in
  (c1 -> result = Auth.failure GoogleProfile.msg_not_enabled (Some true)) /\
  (~ c1 -> c2 -> result = Auth.failure GoogleProfile.msg_redirect (Some true)) /\
  (~ c1 -> ~ c2 -> c3 -> result = Auth.failure GoogleProfile.msg_client (Some true)) /\
  (~ c1 -> ~ c2 -> ~ c3 ->
   result = Auth.failure (GoogleProfile.msg_generic (Auth.message error)) None).

(** The error passes the first three checks and is caught by the check
    for [unauthorized] and [invalid], which only [src/lib/supabase.ts]
    makes. *)
Definition caught_only_by_fourth_check (error : Auth.AuthError) : Prop :=
  ~ (mentions error "not enabled" \/ mentions error "provider") /\
  ~ (mentions error "redirect" \/ mentions error "url") /\
  ~ (mentions error "client_id" \/ mentions error "client") /\
  (mentions error "unauthorized" \/ mentions error "invalid").

(** The steps of [fetchData] that can throw before the next query is
    sent: the schedules query is rejected, or it answers with neither an
    error nor data, so that [schedulesData.map] throws; the feedback
    query is rejected. *)
Definition schedules_step_throws (backend : Dashboard.Backend) : Prop :=
  (exists reason : string, Dashboard.schedules_response backend = Thrown reason) \/
  (exists r : QueryResult.t (list BusScheduleDB.t),
      Dashboard.schedules_response backend = Fulfilled r /\
      QueryResult.error r = None /\ QueryResult.data r = None).

Definition feedback_step_throws (backend : Dashboard.Backend) : Prop :=
  exists reason : string, Dashboard.feedback_response backend = Thrown reason.

(** ** The other handlers of the dashboard *)

Module ComplaintButtons.

Import Dashboard.

Local Open Scope eff_scope.

(** [resetComplaintForm] *)
Definition resetComplaintForm : Eff World unit :=
  setComplaintForm ComplaintForm.initial ;;
  setComplaintError EmptyString ;;
  setComplaintSuccess EmptyString.

(** The [onClick] of the two buttons that open the complaint form. *)
Definition openComplaintForm : Eff World unit :=
  resetComplaintForm ;;
  setShowComplaintForm true.

End ComplaintButtons.

(** The feedback form: the state of the dashboard together with the three
    state variables of the form.  [handleFeedbackSubmit] starts
    [fetchData] without awaiting it; [fetchData] never rejects and writes
    state variables the rest of the handler does not touch, so the state
    once it has settled does not depend on the interleaving.  The log
    keeps the requests of that detached refresh as one entry. *)
Module FeedbackForm.

Record State : Type := mkState {
  dashboard : Dashboard.State;
  feedbackMessage : string;
  feedbackLoading : bool;
  feedbackSuccess : string
}.

Inductive Request : Type :=
  | InsertFeedback (user_id : option string) (message : string)
  | Refresh (requests : list Dashboard.Request)
  | SetTimeout_clearFeedbackSuccess (ms : nat).

Record World : Type := mkWorld {
  state : State;
  requests : list Request
}.

Record Backend : Type := mkBackend {
  dashboard_backend : Dashboard.Backend;
  feedback_insert_response : Awaited (QueryResult.t unit)
}.

Definition update (f : State -> State) : Eff World unit :=
  Eff.modify (fun w => mkWorld (f (state w)) (requests w)).

Definition setFeedbackMessage (v : string) : Eff World unit :=
  update (fun s => mkState (dashboard s) v (feedbackLoading s) (feedbackSuccess s)).

Definition setFeedbackLoading (v : bool) : Eff World unit :=
  update (fun s => mkState (dashboard s) (feedbackMessage s) v (feedbackSuccess s)).

Definition setFeedbackSuccess (v : string) : Eff World unit :=
  update (fun s => mkState (dashboard s) (feedbackMessage s) (feedbackLoading s) v).

Definition request {A} (r : Request) (answer : Awaited A) : Eff World A :=
  fun w => (answer, mkWorld (state w) (requests w ++ [r])).

Section Handlers.

Variable userProfile : option User.t.
Variable backend : Backend.

Local Open Scope eff_scope.

(** [fetchData()] as a statement: the promise is dropped. *)
Definition fetchData_detached : Eff World unit :=
  fun w =>
    let d := Dashboard.fetchData userProfile (dashboard_backend backend)
               (Dashboard.mkWorld (dashboard (state w)) []) in
    (Fulfilled tt,
     mkWorld
       (mkState (Dashboard.state (snd d)) (feedbackMessage (state w))
          (feedbackLoading (state w)) (feedbackSuccess (state w)))
       (requests w ++ [Refresh (Dashboard.requests (snd d))])).

Definition handleFeedbackSubmit : Eff World unit :=
  w <- Eff.get ;;
  let message := feedbackMessage (state w) in
  if negb (JS.truthy (JS.trim message)) then
    Eff.ret tt
  else
    setFeedbackLoading true ;;
    Eff.try_finally
      (Eff.try_catch
        (r <- request (InsertFeedback (Dashboard.userProfile_id userProfile) message)
               (feedback_insert_response backend) ;;
         match QueryResult.error r with
         | Some _ => Eff.ret tt
         | None =>
             setFeedbackMessage EmptyString ;;
             setFeedbackSuccess "Thank you for your feedback! We appreciate your input." ;;
             fetchData_detached ;;
             request (SetTimeout_clearFeedbackSuccess 5000) (Fulfilled tt)
         end)
        (fun _ => Eff.ret tt))
      (setFeedbackLoading false).

End Handlers.

Definition run (handler : Eff World unit) (st : State) : Awaited unit * World :=
  handler (mkWorld st []).

End FeedbackForm.

(** ** The rest of the Supabase wrapper

    The module-level code of [src/lib/supabase.ts] and the two versions of
    [checkGoogleOAuthConfig].  The reason of a rejected promise stands for
    the [message] of the error thrown. *)

Module ClientSetup.

Import Auth.

Definition placeholder_url : string := "https://placeholder.supabase.co".
Definition placeholder_key : string := "placeholder-key".

(** The arguments of [createClient]:
    [supabaseUrl || 'https://placeholder.supabase.co'] and
    [supabaseAnonKey || 'placeholder-key']. *)
Definition clientUrl (cfg : Config) : string :=
  JS.or_else (supabaseUrl cfg) placeholder_url.

Definition clientKey (cfg : Config) : string :=
  JS.or_else (supabaseAnonKey cfg) placeholder_key.

(** The guard of the connection test:
    [supabaseUrl && supabaseAnonKey && supabaseUrl !== 'https://placeholder.supabase.co']. *)
Definition connectionTest (cfg : Config) : bool :=
  JS.truthy_opt (supabaseUrl cfg)
  && JS.truthy_opt (supabaseAnonKey cfg)
  && negb match supabaseUrl cfg with
          | Some u => String.eqb u placeholder_url
          | None => false
          end.

End ClientSetup.

Module ConfigCheck.

Import Auth.

(** [{ isConfigured, error? }] *)
Record Result : Type := mkResult {
  isConfigured : bool;
  error_text : option string
}.

(** The calls made to the auth client, oldest first. *)
Inductive Call : Type :=
  | GetSession
  | SignInWithOAuth (req : OAuthRequest).

Definition is_oauth (c : Call) : bool :=
  match c with
  | SignInWithOAuth _ => true
  | GetSession => false
  end.

(** How the auth client answers: [getSession] with its [error] field, the
    OAuth call as in [signInWithGoogle]. *)
Record Backend : Type := mkBackend {
  getSession_response : Awaited (option AuthError);
  oauth_response : OAuthRequest -> Awaited OAuthResponse
}.

Definition msg_not_configured : string :=
  "Supabase is not properly configured. Please set up your Supabase project first.".
Definition msg_provider : string :=
  "Google OAuth is not properly configured in Supabase. Please check your provider settings.".
Definition msg_connection (m : option string) : string :=
  "Supabase connection error: " +:+ JS.interpolate m.
Definition msg_auth_system (reason : string) : string :=
  "Auth system error: " +:+ reason.
Definition msg_check_failed (reason : string) : string :=
  "Configuration check failed: " +:+ reason.

Section Check.

Variable cfg : Config.
Variable origin : string.
Variable backend : Backend.

Local Open Scope eff_scope.

Definition getSession : Eff (list Call) (option AuthError) :=
  fun calls => (getSession_response backend, calls ++ [GetSession]).

Definition signInWithOAuth (req : OAuthRequest) : Eff (list Call) OAuthResponse :=
  fun calls => (oauth_response backend req, calls ++ [SignInWithOAuth req]).

(** The request of the test call; [skipBrowserRedirect] is left out,
    which the client reads as false. *)
Definition testRequest : OAuthRequest :=
  mkOAuthRequest "google" (origin +:+ "/login?test=true")
    "offline" "consent" None false.

(** [checkGoogleOAuthConfig] of [src/lib/supabase.ts]. *)
Definition checkGoogleOAuthConfig : Eff (list Call) Result :=
  Eff.try_catch
    (if negb (configured cfg) then
       Eff.ret (mkResult false (Some msg_not_configured))
     else
       r <- getSession ;;
       match r with
       | Some error => Eff.ret (mkResult false (Some (msg_connection (message error))))
       | None =>
           Eff.try_catch
             (_ <- signInWithOAuth testRequest ;;
              Eff.ret (mkResult true None))
             (fun oauthError =>
                if JS.includes oauthError "not enabled"
                   || JS.includes oauthError "provider"
                   || JS.includes oauthError "client_id" then
                  Eff.ret (mkResult false (Some msg_provider))
                else
                  Eff.ret (mkResult true None))
       end)
    (fun error => Eff.ret (mkResult false (Some (msg_check_failed error)))).

(** [checkGoogleOAuthConfig] of the other copy of the file, which tests
    the session only. *)
Definition checkGoogleOAuthConfig_session_only : Eff (list Call) Result :=
  Eff.try_catch
    (if negb (configured cfg) then
       Eff.ret (mkResult false (Some msg_not_configured))
     else
       Eff.try_catch
         (r <- getSession ;;
          match r with
          | Some error => Eff.ret (mkResult false (Some (msg_connection (message error))))
          | None => Eff.ret (mkResult true None)
          end)
         (fun authError => Eff.ret (mkResult false (Some (msg_auth_system authError)))))
    (fun error => Eff.ret (mkResult false (Some (msg_check_failed error)))).

End Check.

End ConfigCheck.

(** ** Sample data

    Concrete inputs on which the definitions are evaluated below. *)

Module Sample.

Definition morning : BusSchedule.t :=
  BusSchedule.mk "s1" "7:00 AM" "BOT" "BOT - Muradpur - Oxygen" "IIUC"
    "CityToIIUC" None (Some "IIUC Bus") None None "Regular".

Definition friday_trip : BusSchedule.t :=
  BusSchedule.mk "s2" "8:30 AM" "Agrabad" "Agrabad - Boropool - AK Khan" "IIUC"
    "CityToIIUC" (Some "Male") None None None "Friday".

Definition evening : BusSchedule.t :=
  BusSchedule.mk "s3" "4:35 PM" "IIUC" "AK Khan - GEC - Chawkbazar" "Chawkbazar"
    "IIUCToCity" (Some "Female") None (Some "Friday special") None "Regular".

Definition schedules : list BusSchedule.t := [morning; friday_trip; evening].

(** A heap on which the array at address 0 holds [schedules]. *)
Definition heap : Heap.t :=
  Heap.mk
    (<[1 := morning]> (<[2 := friday_trip]> (<[3 := evening]> ∅)))
    (<[0 := [1; 2; 3]]> ∅).

(** A complaint whose title and description are not empty but whose
    description has 8 characters. *)
Definition short_complaint : ComplaintForm.t :=
  ComplaintForm.mk "Late bus" "Too late" Category.delay Priority.high
    EmptyString EmptyString.

Definition long_complaint : ComplaintForm.t :=
  ComplaintForm.mk "  Late bus " "The 7:00 AM bus from BOT left 40 minutes late. "
    Category.delay Priority.high "BOT to IIUC" "  ".

Definition dashboard (form : ComplaintForm.t) : Dashboard.State :=
  Dashboard.mkState schedules [] [] false true form false EmptyString EmptyString.

(** A database that answers every request with an empty result. *)
Definition accepting : Dashboard.Backend :=
  Dashboard.mkBackend
    (Fulfilled (QueryResult.mk (Some []) None))
    (Fulfilled (QueryResult.mk (Some []) None))
    (Fulfilled (QueryResult.mk (Some []) None))
    (Fulfilled (QueryResult.mk (Some []) None)).

(** A database that refuses the insert of a complaint. *)
Definition refusing : Dashboard.Backend :=
  Dashboard.mkBackend
    (Fulfilled (QueryResult.mk (Some []) None))
    (Fulfilled (QueryResult.mk (Some []) None))
    (Fulfilled (QueryResult.mk (Some []) None))
    (Fulfilled (QueryResult.mk None
       (Some (PostgrestError.mk "new row violates row-level security policy" "42501")))).

Definition config : Auth.Config :=
  Auth.mkConfig (Some "https://iiuc-bus.supabase.co") (Some "anon-key").

Definition origin : string := "http://localhost:5173".

Definition provider_disabled : Auth.AuthError :=
  Auth.mkAuthError (Some "Unsupported provider: provider is not enabled").

Definition invalid_grant : Auth.AuthError :=
  Auth.mkAuthError (Some "invalid request: bad token").

(** An OAuth endpoint that answers every call with the given error. *)
Definition failing_sdk (e : Auth.AuthError)
    : Auth.OAuthRequest -> Awaited Auth.OAuthResponse :=
  fun _ => Fulfilled (Auth.mkOAuthResponse (Auth.mkOAuthData None) (Some e)).

Definition google_user : GoogleProfile.AuthUser :=
  GoogleProfile.mkAuthUser "3f2a9c1e-77aa-4c1b-9d2e-5b6f00c0ffee"
    (Some "student@example.com")
    (Some (GoogleProfile.mkMetadata (Some "Test Student") None)).

Definition signed_in : Awaited GoogleProfile.SessionResponse :=
  Fulfilled (GoogleProfile.mkSessionResponse
    (Some (GoogleProfile.mkSession (Some google_user))) None).

Definition permission_denied : PostgrestError.t :=
  PostgrestError.mk "permission denied for table users" "42501".

(** The session holds [google_user]; the lookup in the [users] table is
    refused by the database. *)
Definition lookup_refused : GoogleProfile.Backend :=
  GoogleProfile.mkBackend signed_in
    (Some (GoogleProfile.Failing permission_denied)) None.

Definition working : GoogleProfile.Backend :=
  GoogleProfile.mkBackend signed_in None None.

Definition empty_world : GoogleProfile.World := GoogleProfile.mkWorld ∅ [].

(** Rows as the database returns them. *)
Definition morning_row : BusScheduleDB.t :=
  BusScheduleDB.mk "s1" "7:00 AM" "BOT" "BOT - Muradpur - Oxygen" "IIUC"
    "CityToIIUC" None (Some "IIUC Bus") None None "Regular" "2025-01-01T00:00:00Z".

Definition friday_row : BusScheduleDB.t :=
  BusScheduleDB.mk "s2" "8:30 AM" "Agrabad" "Agrabad - Boropool - AK Khan" "IIUC"
    "CityToIIUC" (Some "Male") None None None "Friday" "2025-01-01T00:00:00Z".

Definition feedback_row : Feedback.t :=
  Feedback.mk "f1" "u1" "The morning bus is always on time." "2025-02-01T08:00:00Z" None.

Definition complaint_row : Complaint.t :=
  Complaint.mk "c1" "u1" "Late bus" "The 7:00 AM bus left 40 minutes late."
    Category.delay Priority.high Status.pending (Some "BOT to IIUC") None
    "2025-02-02T08:00:00Z" None None None.

Definition student : User.t :=
  User.mk "u1" "student@example.com" "Test Student" "C221001" "01700000000"
    Gender.Female Role.student "2025-01-01T00:00:00Z".

(** A database with two schedules, one feedback and one complaint. *)
Definition populated : Dashboard.Backend :=
  Dashboard.mkBackend
    (Fulfilled (QueryResult.mk (Some [morning_row; friday_row]) None))
    (Fulfilled (QueryResult.mk (Some [feedback_row]) None))
    (Fulfilled (QueryResult.mk (Some [complaint_row]) None))
    (Fulfilled (QueryResult.mk (Some []) None)).

Definition timeout_error : PostgrestError.t :=
  PostgrestError.mk "canceling statement due to statement timeout" "57014".

(** The schedules query fails; the other two are answered. *)
Definition schedules_down : Dashboard.Backend :=
  Dashboard.mkBackend
    (Fulfilled (QueryResult.mk None (Some timeout_error)))
    (Fulfilled (QueryResult.mk (Some [feedback_row]) None))
    (Fulfilled (QueryResult.mk (Some [complaint_row]) None))
    (Fulfilled (QueryResult.mk (Some []) None)).

(** The schedules query answers with neither data nor error. *)
Definition schedules_null : Dashboard.Backend :=
  Dashboard.mkBackend
    (Fulfilled (QueryResult.mk None None))
    (Fulfilled (QueryResult.mk (Some [feedback_row]) None))
    (Fulfilled (QueryResult.mk (Some [complaint_row]) None))
    (Fulfilled (QueryResult.mk (Some []) None)).

(** The feedback query answers with neither data nor error. *)
Definition feedback_null : Dashboard.Backend :=
  Dashboard.mkBackend
    (Fulfilled (QueryResult.mk (Some [morning_row]) None))
    (Fulfilled (QueryResult.mk None None))
    (Fulfilled (QueryResult.mk (Some [complaint_row]) None))
    (Fulfilled (QueryResult.mk (Some []) None)).

(** A dashboard that already shows some rows. *)
Definition shown : Dashboard.State :=
  Dashboard.mkState schedules [feedback_row] [complaint_row] false false
    ComplaintForm.initial false EmptyString EmptyString.

Definition shown_world : Dashboard.World := Dashboard.mkWorld shown [].

(** The feedback form with a message typed in, and with blanks only. *)
Definition feedback_typed : FeedbackForm.State :=
  FeedbackForm.mkState shown "  Great service!  " false EmptyString.

Definition feedback_blank : FeedbackForm.State :=
  FeedbackForm.mkState shown "   " false EmptyString.

(** A database that refuses the insert of a feedback. *)
Definition feedback_refusing : FeedbackForm.Backend :=
  FeedbackForm.mkBackend populated
    (Fulfilled (QueryResult.mk None (Some permission_denied))).

(** An OAuth endpoint that accepts every call, and one that cannot be
    reached. *)
Definition accepting_sdk : Auth.OAuthRequest -> Awaited Auth.OAuthResponse :=
  fun _ =>
    Fulfilled (Auth.mkOAuthResponse
      (Auth.mkOAuthData (Some "https://accounts.google.com/o/oauth2/v2/auth")) None).

Definition unreachable_sdk : Auth.OAuthRequest -> Awaited Auth.OAuthResponse :=
  fun _ => Thrown "Failed to fetch".

(** The auth client with a working session and a Google provider that is
    not enabled. *)
Definition provider_off : ConfigCheck.Backend :=
  ConfigCheck.mkBackend (Fulfilled None) (failing_sdk provider_disabled).

(** A second user whose id starts with the same 8 characters as the id
    of [google_user]. *)
Definition twin_user : GoogleProfile.AuthUser :=
  GoogleProfile.mkAuthUser "3f2a9c1e-0000-4000-8000-000000000002"
    (Some "other@example.com") None.

End Sample.

(* ===================================================================== *)
(** * Part II: properties                                                 *)
(* ===================================================================== *)

(** ** Strings *)

Lemma append_cons (c : ascii) (s t : string) :
  String c s +:+ t = String c (s +:+ t).
Proof. reflexivity. Qed.

Lemma append_nil_l (s : string) : EmptyString +:+ s = s.
Proof. reflexivity. Qed.

Lemma append_nil_r (s : string) : s +:+ EmptyString = s.
Proof.
  induction s as [|c s IH]; [reflexivity |].
  now rewrite append_cons, IH.
Qed.

Lemma append_assoc (a b c : string) : (a +:+ b) +:+ c = a +:+ b +:+ c.
Proof.
  induction a as [|x a IH]; [reflexivity |].
  now rewrite !append_cons, IH.
Qed.

Lemma startsWith_spec (s p : string) :
  JS.startsWith s p = true <-> exists post : string, s = p +:+ post.
Proof.
  revert s. induction p as [|a p IH]; intros s; simpl.
  - split; [intros _; now exists s | reflexivity].
  - destruct s as [|b s].
    + split; [discriminate | intros [post H]; discriminate].
    + rewrite andb_true_iff, Ascii.eqb_eq, IH. split.
      * intros [-> [post ->]]. now exists post.
      * intros [post H]. rewrite append_cons in H. injection H as -> ->.
        split; [reflexivity | now exists post].
Qed.

Lemma includes_unfold (s sub : string) :
  JS.includes s sub =
  JS.startsWith s sub ||
  match s with
  | EmptyString => false
  | String _ s' => JS.includes s' sub
  end.
Proof. destruct s; reflexivity. Qed.

Lemma includes_spec (s sub : string) :
  JS.includes s sub = true <-> JS.IsSubstring sub s.
Proof.
  unfold JS.IsSubstring. split.
  - induction s as [|c s IH]; rewrite includes_unfold, orb_true_iff.
    + intros [H | H]; [| discriminate].
      apply startsWith_spec in H as [post H]. now exists EmptyString, post.
    + intros [H | H].
      * apply startsWith_spec in H as [post H]. now exists EmptyString, post.
      * destruct (IH H) as (pre & post & ->). now exists (String c pre), post.
  - intros (pre & post & ->). induction pre as [|c pre IH].
    + rewrite append_nil_l, includes_unfold, orb_true_iff. left.
      apply startsWith_spec. now exists post.
    + rewrite append_cons, includes_unfold, IH. apply orb_true_r.
Qed.

Lemma includes_empty (s : string) : JS.includes s EmptyString = true.
Proof. destruct s; reflexivity. Qed.

(** ** The schedule filter *)

Section ScheduleFilterFacts.

Variable toLowerCase : string -> string.

Lemma matchesSearch_iff (searchTerm : string) (schedule : BusSchedule.t) :
  matchesSearch toLowerCase searchTerm schedule = true <->
  matchesSearch_spec toLowerCase searchTerm schedule.
Proof.
  unfold matchesSearch, matchesSearch_spec.
  rewrite !orb_true_iff, !includes_spec, String.eqb_eq. simpl. split.
  - intros [[[[H | H] | H] | H] | H]; [now left | right ..]; eauto 10.
  - intros [H | (field & Hin & Hsub)]; [tauto |].
    destruct Hin as [<- | [<- | [<- | [<- | []]]]]; tauto.
Qed.

Lemma matchesFilter_iff (filterType : string) (schedule : BusSchedule.t) :
  matchesFilter filterType schedule = true <->
  matchesFilter_spec filterType schedule.
Proof.
  unfold matchesFilter, matchesFilter_spec.
  rewrite !orb_true_iff, !andb_true_iff, !String.eqb_eq. tauto.
Qed.

(** C1. For every list of schedules, search term and filter type, a
    schedule is in the filtered list exactly when it is in the input
    list, matches the search (the term is empty, or the lowercased term
    is a substring of the lowercased time, starting point, route or end
    point) and matches the category filter (all; regular and Regular;
    friday and Friday). *)
Theorem filteredSchedules_exactly
    (schedules : list BusSchedule.t) (searchTerm filterType : string)
    (schedule : BusSchedule.t) :
  In schedule (filteredSchedules toLowerCase schedules searchTerm filterType) <->
  (In schedule schedules /\
   matchesSearch_spec toLowerCase searchTerm schedule /\
   matchesFilter_spec filterType schedule).
Proof.
  unfold filteredSchedules, filterCallback.
  now rewrite filter_In, andb_true_iff, matchesSearch_iff, matchesFilter_iff.
Qed.

(** C2. Whatever the schedules and the search term, every schedule kept
    by the filter [friday] has schedule type [Friday]. *)
Theorem friday_filter_only_friday
    (schedules : list BusSchedule.t) (searchTerm : string) :
  Forall (fun schedule => BusSchedule.scheduleType schedule = "Friday")
         (filteredSchedules toLowerCase schedules searchTerm "friday").
Proof.
  apply List.Forall_forall. intros schedule Hin.
  unfold filteredSchedules, filterCallback in Hin.
  apply filter_In in Hin as [_ Hkept].
  apply andb_true_iff in Hkept as [_ Hfilter].
  apply matchesFilter_iff in Hfilter.
  destruct Hfilter as [H | [[H _] | [_ H]]]; [discriminate | discriminate | exact H].
Qed.

Lemma filter_all_true {A} (f : A -> bool) (l : list A) :
  (forall x, f x = true) -> List.filter f l = l.
Proof.
  intros Hf. induction l as [|x l IH]; simpl; [reflexivity |].
  now rewrite Hf, IH.
Qed.

Lemma filter_sublist {A} (f : A -> bool) (l : list A) :
  List.filter f l `sublist_of` l.
Proof.
  induction l as [|x l IH]; simpl; [constructor |].
  destruct (f x); now constructor.
Qed.

(** C8. With an empty search term and the filter [all] the filtered
    list is the input list, element for element and in the same order;
    for every search term and filter type the filtered list is a
    subsequence of the input list. *)
Theorem filteredSchedules_identity_and_subsequence
    (schedules : list BusSchedule.t) :
  filteredSchedules toLowerCase schedules EmptyString "all" = schedules /\
  (forall searchTerm filterType : string,
      filteredSchedules toLowerCase schedules searchTerm filterType
        `sublist_of` schedules).
Proof.
  split.
  - apply filter_all_true. reflexivity.
  - intros. apply filter_sublist.
Qed.

End ScheduleFilterFacts.

(** ** The filter on the heap *)

Lemma keep_deref (callback : BusSchedule.t -> bool)
    (objs : gmap nat BusSchedule.t) (refs : list nat) (schedules : list BusSchedule.t) :
  Heap.deref objs refs = Some schedules ->
  exists kept : list nat,
    Heap.keep callback objs refs = Some kept /\
    Heap.deref objs kept = Some (List.filter callback schedules).
Proof.
  revert schedules. induction refs as [|r refs IH]; intros schedules; simpl.
  - intros [= <-]. now exists [].
  - destruct (objs !! r) as [o|] eqn:Hr; [| discriminate].
    destruct (Heap.deref objs refs) as [os|]; [| discriminate].
    intros [= <-]. destruct (IH os eq_refl) as (kept & -> & Hkept).
    simpl. destruct (callback o).
    + exists (r :: kept). simpl. now rewrite Hr, Hkept.
    + now exists kept.
Qed.

Lemma fresh_array_unused (h : Heap.t) :
  Heap.arrays h !! fresh (dom (Heap.arrays h)) = None.
Proof. apply not_elem_of_dom, is_fresh. Qed.

(** One call of [filter]: it returns, the new array is at an address that
    was free, every object and every array of the old heap is as it was,
    and the new array holds the filtered list. *)
Lemma Array_filter_run (callback : BusSchedule.t -> bool)
    (h : Heap.t) (arr : nat) (schedules : list BusSchedule.t) :
  Heap.read h arr = Some schedules ->
  exists (h' : Heap.t) (r : nat),
    Heap.Array_filter callback h arr = Some (h', r) /\
    Heap.objects h' = Heap.objects h /\
    Heap.arrays h !! r = None /\
    (forall (a : nat) (refs : list nat),
        Heap.arrays h !! a = Some refs -> Heap.arrays h' !! a = Some refs) /\
    Heap.read h' r = Some (List.filter callback schedules).
Proof.
  unfold Heap.read, Heap.Array_filter. intros Hread.
  destruct (Heap.arrays h !! arr) as [refs|] eqn:Harr; [| discriminate].
  destruct (keep_deref callback _ _ _ Hread) as (kept & -> & Hkept).
  eexists _, _. split; [reflexivity |]. simpl.
  pose proof (fresh_array_unused h) as Hfresh.
  repeat split; try assumption.
  - intros a refs' Ha. rewrite lookup_insert_ne; [assumption |].
    intros <-. congruence.
  - now rewrite lookup_insert_eq.
Qed.

Lemma read_preserved (h h' : Heap.t) (a : nat) (l : list BusSchedule.t) :
  Heap.objects h' = Heap.objects h ->
  (forall (a : nat) (refs : list nat),
      Heap.arrays h !! a = Some refs -> Heap.arrays h' !! a = Some refs) ->
  Heap.read h a = Some l -> Heap.read h' a = Some l.
Proof.
  unfold Heap.read. intros Hobj Harr.
  destruct (Heap.arrays h !! a) as [refs|] eqn:Ha; [| discriminate].
  now rewrite (Harr _ _ Ha), Hobj.
Qed.

(** C7. The filter is a pure, total function.  On a heap whose array
    [arr] holds the schedule list, the filter returns; run a second time
    on the heap it left, it returns again, and both results hold the same
    list, the one [filteredSchedules] computes.  No schedule record is
    changed by either run, and every array that existed before, the input
    list among them, still holds the same references. *)
Theorem filteredSchedules_pure_total (toLowerCase : string -> string)
    (h : Heap.t) (arr : nat) (schedules : list BusSchedule.t)
    (searchTerm filterType : string) :
  Heap.read h arr = Some schedules ->
  exists (h1 : Heap.t) (r1 : nat) (h2 : Heap.t) (r2 : nat),
    filteredSchedules_on_heap toLowerCase h arr searchTerm filterType = Some (h1, r1) /\
    filteredSchedules_on_heap toLowerCase h1 arr searchTerm filterType = Some (h2, r2) /\
    Heap.read h1 r1 = Some (filteredSchedules toLowerCase schedules searchTerm filterType) /\
    Heap.read h2 r2 = Some (filteredSchedules toLowerCase schedules searchTerm filterType) /\
    Heap.read h2 r1 = Heap.read h2 r2 /\
    Heap.objects h1 = Heap.objects h /\
    Heap.objects h2 = Heap.objects h /\
    Heap.read h1 arr = Some schedules /\
    Heap.read h2 arr = Some schedules /\
    (forall (a : nat) (refs : list nat),
        Heap.arrays h !! a = Some refs ->
        Heap.arrays h1 !! a = Some refs /\ Heap.arrays h2 !! a = Some refs).
Proof.
  intros Hread. unfold filteredSchedules_on_heap, filteredSchedules.
  set (callback := filterCallback toLowerCase searchTerm filterType).
  destruct (Array_filter_run callback h arr schedules Hread)
    as (h1 & r1 & Hrun1 & Hobj1 & Hfree1 & Harr1 & Hres1).
  assert (Hread1 : Heap.read h1 arr = Some schedules)
    by (eapply read_preserved; eassumption).
  destruct (Array_filter_run callback h1 arr schedules Hread1)
    as (h2 & r2 & Hrun2 & Hobj2 & Hfree2 & Harr2 & Hres2).
  assert (Hres12 : Heap.read h2 r1 = Some (List.filter callback schedules))
    by (eapply read_preserved; eassumption).
  exists h1, r1, h2, r2. repeat split; try assumption.
  - congruence.
  - congruence.
  - eapply read_preserved; eassumption.
  - now apply Harr1.
  - now apply Harr2, Harr1.
Qed.

(** ** The complaint form *)

Section ComplaintFacts.

Import Dashboard.

Variable userProfile : option User.t.
Variable backend : Backend.

Ltac run_eff :=
  unfold Eff.try_finally, Eff.try_catch, Eff.bind, Eff.ret, Eff.throw,
    Eff.get, Eff.modify, Eff.await, request,
    setSchedules, setFeedback, setComplaints, setLoading,
    setShowComplaintForm, setComplaintForm, setComplaintLoading,
    setComplaintSuccess, setComplaintError, update; simpl.

(** [fetchData] never throws and leaves the complaint form, its
    messages and its flags alone. *)
Lemma fetchData_frame (w : World) :
  exists (w' : World) (sent : list Request),
    fetchData userProfile backend w = (Fulfilled tt, w') /\
    complaintForm (state w') = complaintForm (state w) /\
    complaintError (state w') = complaintError (state w) /\
    complaintSuccess (state w') = complaintSuccess (state w) /\
    showComplaintForm (state w') = showComplaintForm (state w) /\
    complaintLoading (state w') = complaintLoading (state w) /\
    requests w' = requests w ++ sent /\
    existsb is_insert sent = false.
Proof.
  unfold fetchData. run_eff.
  destruct (schedules_response backend) as [[d1 [e1|]]|];
    [| destruct d1 |]; simpl;
    try (destruct (feedback_response backend) as [[d2 [e2|]]|]; simpl);
    try (destruct (complaints_response backend) as [[d3 [e3|]]|]; simpl);
    eexists _, _; (split; [reflexivity |]); simpl;
    rewrite <- ?app_assoc; simpl;
    repeat (split; [reflexivity |]); reflexivity.
Qed.

Local Opaque Dashboard.fetchData.

Lemma truthy_iff (s : string) : JS.truthy s = true <-> s <> EmptyString.
Proof.
  unfold JS.truthy. rewrite negb_true_iff, <- not_true_iff_false, String.eqb_eq.
  reflexivity.
Qed.

Lemma passes_validation_iff (form : ComplaintForm.t) :
  passes_validation form = true <->
  JS.trim (ComplaintForm.title form) <> EmptyString /\
  JS.trim (ComplaintForm.description form) <> EmptyString /\
  10 <= String.length (JS.trim (ComplaintForm.description form)).
Proof.
  unfold passes_validation.
  rewrite !andb_true_iff, !truthy_iff, negb_true_iff, Nat.ltb_ge. tauto.
Qed.

(** A form that fails a guard: nothing is sent, the form stays as it
    is, and an error message is set. *)
Lemma handleComplaintSubmit_rejects (st : State) :
  passes_validation (complaintForm st) = false ->
  requests_of (handleComplaintSubmit userProfile backend) st = [] /\
  complaintForm (state_after (handleComplaintSubmit userProfile backend) st)
    = complaintForm st /\
  complaintError (state_after (handleComplaintSubmit userProfile backend) st)
    <> EmptyString.
Proof.
  unfold passes_validation, requests_of, state_after, run, handleComplaintSubmit.
  run_eff. intros Hv.
  destruct (JS.truthy (JS.trim (ComplaintForm.title (complaintForm st)))); simpl in *;
    [| now repeat split].
  destruct (JS.truthy (JS.trim (ComplaintForm.description (complaintForm st))));
    simpl in *; [| now repeat split].
  destruct (String.length (JS.trim (ComplaintForm.description (complaintForm st))) <? 10);
    simpl in *; [now repeat split | discriminate].
Qed.

(** A form that passes the guards: the insert is the first request, and
    the form afterwards is the initial one when the insert succeeded
    and the old one otherwise. *)
Lemma handleComplaintSubmit_sends (st : State) :
  passes_validation (complaintForm st) = true ->
  (exists rest : list Request,
      requests_of (handleComplaintSubmit userProfile backend) st
      = InsertComplaint (complaintRow userProfile (complaintForm st)) :: rest) /\
  complaintForm (state_after (handleComplaintSubmit userProfile backend) st)
    = (if insert_succeeds backend then ComplaintForm.initial else complaintForm st).
Proof.
  unfold passes_validation, insert_succeeds, requests_of, state_after, run,
    handleComplaintSubmit.
  run_eff. intros Hv.
  destruct (JS.truthy (JS.trim (ComplaintForm.title (complaintForm st)))); simpl in *;
    [| discriminate].
  destruct (JS.truthy (JS.trim (ComplaintForm.description (complaintForm st))));
    simpl in *; [| discriminate].
  destruct (String.length (JS.trim (ComplaintForm.description (complaintForm st))) <? 10);
    simpl in *; [discriminate |].
  destruct (complaint_insert_response backend) as [[d [e|]]|]; simpl;
    try (split; [eexists; reflexivity | reflexivity]).
  match goal with
  | |- context [fetchData userProfile backend ?w] =>
      destruct (fetchData_frame w) as (w' & sent & -> & Hform & _ & _ & _ & _ & Hreq & _)
  end.
  simpl in *. rewrite Hreq. split; [eexists; reflexivity | exact Hform].
Qed.

(** C3, as amended.  [handleComplaintSubmit] rejects a submission (it
    sets an error message and sends nothing) exactly when the title is
    empty after trimming, the description is empty after trimming, or
    the trimmed description has fewer than 10 characters; every other
    complaint is submitted: the insert of its row is the first request
    sent.  Category and priority are enumeration values by their type
    and are not checked. *)
Theorem complaint_submitted_iff_validated (st : State) :
  (submitted (handleComplaintSubmit userProfile backend) st = true <->
   (JS.trim (ComplaintForm.title (complaintForm st)) <> EmptyString /\
    JS.trim (ComplaintForm.description (complaintForm st)) <> EmptyString /\
    10 <= String.length (JS.trim (ComplaintForm.description (complaintForm st))))) /\
  (submitted (handleComplaintSubmit userProfile backend) st = true ->
   exists rest : list Request,
     requests_of (handleComplaintSubmit userProfile backend) st
     = InsertComplaint (complaintRow userProfile (complaintForm st)) :: rest) /\
  (submitted (handleComplaintSubmit userProfile backend) st = false ->
   requests_of (handleComplaintSubmit userProfile backend) st = [] /\
   complaintError (state_after (handleComplaintSubmit userProfile backend) st)
     <> EmptyString).
Proof.
  rewrite <- passes_validation_iff. unfold submitted.
  destruct (passes_validation (complaintForm st)) eqn:Hv.
  - destruct (handleComplaintSubmit_sends st Hv) as [[rest Hreq] _].
    rewrite Hreq. simpl. repeat split; try discriminate; eauto.
  - destruct (handleComplaintSubmit_rejects st Hv) as (Hreq & _ & Herr).
    rewrite Hreq. simpl. repeat split; try discriminate; auto.
Qed.

(** C10. The handler is atomic on the complaint form: when a guard
    fails, or the insert returns an error or throws, the form fields
    are what they were; when the guards pass and the insert succeeds,
    and only then, the form is reset to empty title, description, bus
    route and incident time, category [other] and priority [medium]. *)
Theorem complaint_form_reset_only_on_success (st : State) :
  (passes_validation (complaintForm st) = false ->
   complaintForm (state_after (handleComplaintSubmit userProfile backend) st)
   = complaintForm st) /\
  (insert_succeeds backend = false ->
   complaintForm (state_after (handleComplaintSubmit userProfile backend) st)
   = complaintForm st) /\
  (passes_validation (complaintForm st) = true ->
   insert_succeeds backend = true ->
   complaintForm (state_after (handleComplaintSubmit userProfile backend) st)
   = ComplaintForm.mk EmptyString EmptyString Category.other Priority.medium
       EmptyString EmptyString).
Proof.
  destruct (passes_validation (complaintForm st)) eqn:Hv.
  - destruct (handleComplaintSubmit_sends st Hv) as [_ ->].
    split; [discriminate |]. split; [now intros -> |].
    intros _ Hok. now rewrite Hok.
  - destruct (handleComplaintSubmit_rejects st Hv) as (_ & -> & _).
    split; [reflexivity |]. split; [reflexivity | discriminate].
Qed.

End ComplaintFacts.

(** ** Google sign-in *)

Lemma includes_opt_iff (error : Auth.AuthError) (sub : string) :
  JS.includes_opt (Auth.message error) sub = true <-> mentions error sub.
Proof.
  unfold mentions, JS.includes_opt. destruct (Auth.message error) as [m|].
  - rewrite includes_spec. split.
    + intros H. now exists m.
    + now intros (m' & [= <-] & H).
  - split; [discriminate | now intros (m' & [=] & _)].
Qed.

Lemma either_iff (error : Auth.AuthError) (a b : string) :
  JS.includes_opt (Auth.message error) a || JS.includes_opt (Auth.message error) b = true
  <-> mentions error a \/ mentions error b.
Proof. now rewrite orb_true_iff, !includes_opt_iff. Qed.

Lemma neither_iff (error : Auth.AuthError) (a b : string) :
  JS.includes_opt (Auth.message error) a || JS.includes_opt (Auth.message error) b = false
  <-> ~ (mentions error a \/ mentions error b).
Proof. now rewrite <- either_iff, not_true_iff_false. Qed.

Lemma classify_spec (error : Auth.AuthError) :
  Supabase.classified_by_substring error (Supabase.classify error).
Proof.
  unfold Supabase.classified_by_substring, Supabase.classify. cbv zeta.
  destruct (_ || _) eqn:H1;
    [apply either_iff in H1 | apply neither_iff in H1]; simpl;
    [repeat split; intros; first [reflexivity | tauto] |].
  destruct (_ || _) eqn:H2;
    [apply either_iff in H2 | apply neither_iff in H2]; simpl;
    [repeat split; intros; first [reflexivity | tauto] |].
  destruct (_ || _) eqn:H3;
    [apply either_iff in H3 | apply neither_iff in H3]; simpl;
    [repeat split; intros; first [reflexivity | tauto] |].
  destruct (_ || _) eqn:H4;
    [apply either_iff in H4 | apply neither_iff in H4]; simpl;
    repeat split; intros; first [reflexivity | tauto].
Qed.

(** [signInWithGoogle] of [src/lib/supabase.ts]: when the configured
    client gets an error back from the OAuth call, the function returns
    the classification of its message by substring: not enabled/provider
    first, then redirect/url, then client_id/client, then
    unauthorized/invalid, each with its own fixed explanation and
    [needsSetup: true]; a message matching none of them gives the generic
    failure message, without [needsSetup]. *)
Theorem signInWithGoogle_classifies
    (cfg : Auth.Config) (origin : string)
    (sdk : Auth.OAuthRequest -> Awaited Auth.OAuthResponse)
    (r : Auth.OAuthResponse) (error : Auth.AuthError)
    (calls : list Auth.OAuthRequest) :
  Auth.configured cfg = true ->
  sdk (Supabase.oauthRequest origin) = Fulfilled r ->
  Auth.error r = Some error ->
  exists result : Auth.SignInResult,
    Supabase.signInWithGoogle cfg origin sdk calls
    = (Fulfilled result, calls ++ [Supabase.oauthRequest origin]) /\
    Supabase.classified_by_substring error result.
Proof.
  intros Hcfg Hsdk Herr. exists (Supabase.classify error). split.
  - unfold Supabase.signInWithGoogle, Eff.try_catch, Eff.bind, Eff.ret,
      Auth.signInWithOAuth.
    rewrite Hcfg. simpl. now rewrite Hsdk, Herr.
  - apply classify_spec.
Qed.

Lemma supabase_classify_reports (error : Auth.AuthError) :
  reports_failure
    [Supabase.msg_not_enabled; Supabase.msg_redirect; Supabase.msg_client;
     Supabase.msg_invalid]
    Supabase.msg_generic (Supabase.classify error).
Proof.
  unfold reports_failure, Supabase.classify, Auth.failure.
  repeat (destruct (_ || _); [eexists; simpl; intuition eauto |]).
  eexists; simpl; intuition eauto.
Qed.

Lemma profile_classify_reports (error : Auth.AuthError) :
  reports_failure
    [GoogleProfile.msg_not_enabled; GoogleProfile.msg_redirect; GoogleProfile.msg_client]
    GoogleProfile.msg_generic (GoogleProfile.classify error).
Proof.
  unfold reports_failure, GoogleProfile.classify, Auth.failure.
  repeat (destruct (_ || _); [eexists; simpl; intuition eauto |]).
  eexists; simpl; intuition eauto.
Qed.

Lemma reports_failure_more (texts texts' : list string)
    (generic : option string -> string) (result : Auth.SignInResult) :
  (forall m, In m texts -> In m texts') ->
  reports_failure texts generic result -> reports_failure texts' generic result.
Proof.
  intros Hsub (m & He & Hd & [Hin | Hg]); exists m; auto.
Qed.

(** [signInWithGoogle] of [src/lib/supabase.ts]: it returns, it calls the
    OAuth endpoint at most once, and a failure is reported by a message. *)
Lemma supabase_signIn_returns
    (cfg : Auth.Config) (origin : string)
    (sdk : Auth.OAuthRequest -> Awaited Auth.OAuthResponse)
    (calls : list Auth.OAuthRequest) :
  exists (result : Auth.SignInResult) (calls' : list Auth.OAuthRequest),
    Supabase.signInWithGoogle cfg origin sdk calls = (Fulfilled result, calls') /\
    (calls' = calls \/ calls' = calls ++ [Supabase.oauthRequest origin]) /\
    (sign_in_fails cfg (sdk (Supabase.oauthRequest origin)) ->
     reports_failure
       [Supabase.msg_not_configured; Supabase.msg_not_enabled; Supabase.msg_redirect;
        Supabase.msg_client; Supabase.msg_invalid; Supabase.msg_unexpected]
       Supabase.msg_generic result).
Proof.
  unfold Supabase.signInWithGoogle, Eff.try_catch, Eff.bind, Eff.ret,
    Auth.signInWithOAuth, sign_in_fails.
  destruct (Auth.configured cfg) eqn:Hcfg; simpl.
  - destruct (sdk (Supabase.oauthRequest origin)) as [[d [e|]]|reason] eqn:Hsdk; simpl;
      eexists _, _; (split; [reflexivity |]); (split; [now right |]); intros Hfail.
    + eapply reports_failure_more; [| apply supabase_classify_reports].
      simpl. tauto.
    + destruct Hfail as [H | [(x & H) | (r & e & H & He)]]; try discriminate.
      injection H as <-. discriminate.
    + eexists. simpl. intuition eauto.
  - eexists _, _. split; [reflexivity |]. split; [now left |]. intros _.
    eexists. simpl. intuition eauto.
Qed.

(** The same for the copy with profile creation. *)
Lemma profile_signIn_returns
    (cfg : Auth.Config) (origin : string)
    (sdk : Auth.OAuthRequest -> Awaited Auth.OAuthResponse)
    (calls : list Auth.OAuthRequest) :
  exists (result : Auth.SignInResult) (calls' : list Auth.OAuthRequest),
    GoogleProfile.signInWithGoogle cfg origin sdk calls = (Fulfilled result, calls') /\
    (calls' = calls \/ calls' = calls ++ [GoogleProfile.oauthRequest origin]) /\
    (sign_in_fails cfg (sdk (GoogleProfile.oauthRequest origin)) ->
     reports_failure
       [GoogleProfile.msg_not_configured; GoogleProfile.msg_not_enabled;
        GoogleProfile.msg_redirect; GoogleProfile.msg_client;
        GoogleProfile.msg_unexpected]
       GoogleProfile.msg_generic result).
Proof.
  unfold GoogleProfile.signInWithGoogle, Eff.try_catch, Eff.bind, Eff.ret,
    Auth.signInWithOAuth, sign_in_fails.
  destruct (Auth.configured cfg) eqn:Hcfg; simpl.
  - destruct (sdk (GoogleProfile.oauthRequest origin)) as [[d [e|]]|reason] eqn:Hsdk;
      simpl;
      eexists _, _; (split; [reflexivity |]); (split; [now right |]); intros Hfail.
    + eapply reports_failure_more; [| apply profile_classify_reports].
      simpl. tauto.
    + destruct Hfail as [H | [(x & H) | (r & e & H & He)]]; try discriminate.
      injection H as <-. discriminate.
    + eexists. simpl. intuition eauto.
  - eexists _, _. split; [reflexivity |]. split; [now left |]. intros _.
    eexists. simpl. intuition eauto.
Qed.

(** C5. Every failure path of [signInWithGoogle] ends in a returned
    message.  Whatever the configuration and whatever the OAuth call does
    (return data, return an error, throw), the function returns a result
    and never throws; it calls the OAuth endpoint at most once, so a
    failed call is not retried; and when the configuration check fails,
    the call throws or returns an error, the result has no data and its
    [error] field carries a message: one of the fixed texts of the
    function, or the generic text built around the message of the error.
    This holds for both copies of the function. *)
Theorem signInWithGoogle_failures_are_returned
    (cfg : Auth.Config) (origin : string)
    (sdk : Auth.OAuthRequest -> Awaited Auth.OAuthResponse)
    (calls : list Auth.OAuthRequest) :
  (exists (result : Auth.SignInResult) (calls' : list Auth.OAuthRequest),
    Supabase.signInWithGoogle cfg origin sdk calls = (Fulfilled result, calls') /\
    (calls' = calls \/ calls' = calls ++ [Supabase.oauthRequest origin]) /\
    (sign_in_fails cfg (sdk (Supabase.oauthRequest origin)) ->
     reports_failure
       [Supabase.msg_not_configured; Supabase.msg_not_enabled; Supabase.msg_redirect;
        Supabase.msg_client; Supabase.msg_invalid; Supabase.msg_unexpected]
       Supabase.msg_generic result)) /\
  (exists (result : Auth.SignInResult) (calls' : list Auth.OAuthRequest),
    GoogleProfile.signInWithGoogle cfg origin sdk calls = (Fulfilled result, calls') /\
    (calls' = calls \/ calls' = calls ++ [GoogleProfile.oauthRequest origin]) /\
    (sign_in_fails cfg (sdk (GoogleProfile.oauthRequest origin)) ->
     reports_failure
       [GoogleProfile.msg_not_configured; GoogleProfile.msg_not_enabled;
        GoogleProfile.msg_redirect; GoogleProfile.msg_client;
        GoogleProfile.msg_unexpected]
       GoogleProfile.msg_generic result)).
Proof.
  split; [apply supabase_signIn_returns | apply profile_signIn_returns].
Qed.

(** ** Profile creation *)

Lemma substring_prefix (n : nat) (s : string) :
  exists rest : string,
    s = String.substring 0 n s +:+ rest /\
    String.length (String.substring 0 n s) = Nat.min n (String.length s).
Proof.
  revert s. induction n as [|n IH]; intros s.
  - exists s. destruct s; split; reflexivity.
  - destruct s as [|c s].
    + now exists EmptyString.
    + destruct (IH s) as (rest & Hs & Hlen). exists rest. simpl.
      rewrite append_cons, <- Hs, Hlen. split; reflexivity.
Qed.

Lemma or_else_cases (first second : option string) (dflt value : string) :
  (GoogleProfile.present first value ->
   JS.or_else (JS.or_opt first second) dflt = value) /\
  (GoogleProfile.absent first -> GoogleProfile.present second value ->
   JS.or_else (JS.or_opt first second) dflt = value) /\
  (GoogleProfile.absent first -> GoogleProfile.absent second ->
   JS.or_else (JS.or_opt first second) dflt = dflt).
Proof.
  unfold GoogleProfile.present, GoogleProfile.absent, JS.or_else, JS.or_opt,
    JS.truthy_opt, JS.truthy.
  repeat split.
  - intros [-> Hne]. apply String.eqb_neq in Hne.
    simpl. rewrite Hne. simpl. now rewrite Hne.
  - intros [-> | ->] [-> Hne]; apply String.eqb_neq in Hne;
      simpl; rewrite Hne; reflexivity.
  - intros [-> | ->] [-> | ->]; reflexivity.
Qed.

Section ProfileFacts.

Import GoogleProfile.

Variable toUpperCase : string -> string.
Variable backend : Backend.

(** C9. For every user record of a Google sign-in,
    [createUserProfileFromGoogle] sends one request, the insert of a
    row with the user's id, role [student], gender [Male], empty
    mobile, the user's email, the name taken from [full_name], else
    from [name], else [Google User], and the university id [GOOGLE_]
    followed by the uppercased first 8 characters of the id (the whole
    id when it is shorter). *)
Theorem createUserProfileFromGoogle_row (user : AuthUser) (w : World) :
  let row := profileData toUpperCase user in
  log (snd (createUserProfileFromGoogle toUpperCase backend user w))
    = log w ++ [InsertUser row] /\
  profile_id row = id user /\
  profile_role row = Role.student /\
  profile_gender row = Gender.Male /\
  profile_mobile row = EmptyString /\
  profile_email row = email user /\
  (forall n : string,
      present (full_name (metadata_of user)) n -> profile_name row = n) /\
  (forall n : string,
      absent (full_name (metadata_of user)) ->
      present (name (metadata_of user)) n -> profile_name row = n) /\
  (absent (full_name (metadata_of user)) ->
   absent (name (metadata_of user)) -> profile_name row = "Google User") /\
  (exists first8 rest : string,
      id user = first8 +:+ rest /\
      String.length first8 = Nat.min 8 (String.length (id user)) /\
      profile_university_id row = "GOOGLE_" +:+ toUpperCase first8).
Proof.
  cbv zeta. split.
  - unfold createUserProfileFromGoogle, insert_user, Eff.try_catch, Eff.bind,
      Eff.ret, record.
    destruct (insert_fault backend) as [[e|reason]|]; simpl; try reflexivity.
    destruct (users w !! id user); reflexivity.
  - do 5 (split; [reflexivity |]).
    unfold profileData, metadata_of. simpl.
    pose proof (or_else_cases
      (full_name (default no_metadata (user_metadata user)))
      (name (default no_metadata (user_metadata user))) "Google User") as Hname.
    split; [intros n; apply (Hname n) |].
    split; [intros n; apply (Hname n) |].
    split; [apply (Hname EmptyString) |].
    destruct (substring_prefix 8 (id user)) as (rest & Hid & Hlen).
    exists (String.substring 0 8 (id user)), rest. auto.
Qed.

Ltac run_callback :=
  unfold handleGoogleCallback, createUserProfileFromGoogle, getSession,
    select_user, insert_user, blocking, record,
    Eff.try_catch, Eff.bind, Eff.ret; simpl.

(** Whatever the backend does, the callback returns and no row that is
    in the table is changed or removed. *)
Lemma handleGoogleCallback_keeps_rows (w : World) (k : string) (row : ProfileData) :
  users w !! k = Some row ->
  users (snd (handleGoogleCallback toUpperCase backend w)) !! k = Some row.
Proof.
  intros Hk. run_callback.
  assert (Hinsert : forall u : AuthUser,
    users w !! id u = None ->
    <[id u := profileData toUpperCase u]> (users w) !! k = Some row).
  { intros u Hu. rewrite lookup_insert_ne; [assumption | congruence]. }
  destruct (getSession_response backend) as [r|]; simpl; [| assumption].
  destruct (sessionError r); simpl; [assumption |].
  destruct (session r ≫= user) as [u|]; simpl; [| assumption].
  destruct (select_fault backend) as [[e|reason]|]; simpl; [| assumption |].
  - destruct (String.eqb (PostgrestError.code e) "PGRST116"); simpl; [| assumption].
    destruct (insert_fault backend) as [[e'|reason']|]; simpl; try assumption.
    destruct (users w !! id u) eqn:Hu; simpl; [assumption | now apply Hinsert].
  - destruct (users w !! id u) eqn:Hu; simpl; [assumption |].
    destruct (insert_fault backend) as [[e'|reason']|]; simpl; try assumption.
    rewrite Hu. simpl. now apply Hinsert.
Qed.

(** C6, as amended.  [handleGoogleCallback] creates the profile row
    when the lookup finds none and the backend answers both calls: if
    the session holds a user, no row has the user's id, and neither the
    lookup nor the insert fails, the new profile row is inserted; if
    the lookup fails with an error other than PGRST116, the function
    returns failure and sends no insert; if a row with that id exists
    and the lookup returns it, no insert is sent and the table is left
    as it is; if there is no session, the function returns failure
    without a request on the users table; in every case the rows that
    were in the table stay as they are. *)
Theorem handleGoogleCallback_creates_profile_when_missing (w : World) :
  (forall user : AuthUser,
      session_of backend user -> healthy backend ->
      users w !! id user = None ->
      handleGoogleCallback toUpperCase backend w
      = (Fulfilled (mkCallbackResult true (Some user) None),
         mkWorld (<[id user := profileData toUpperCase user]> (users w))
           (log w ++ [GetSession; SelectUser (id user);
                      InsertUser (profileData toUpperCase user)]))) /\
  (forall (user : AuthUser) (e : PostgrestError.t),
      session_of backend user ->
      select_fault backend = Some (Failing e) ->
      PostgrestError.code e <> "PGRST116" ->
      handleGoogleCallback toUpperCase backend w
      = (Fulfilled (mkCallbackResult false None (Some (OfDatabase e))),
         mkWorld (users w) (log w ++ [GetSession; SelectUser (id user)]))) /\
  (forall (user : AuthUser) (row : ProfileData),
      session_of backend user -> select_fault backend = None ->
      users w !! id user = Some row ->
      handleGoogleCallback toUpperCase backend w
      = (Fulfilled (mkCallbackResult true (Some user) None),
         mkWorld (users w) (log w ++ [GetSession; SelectUser (id user)]))) /\
  (no_session backend ->
   exists result : CallbackResult,
     handleGoogleCallback toUpperCase backend w
     = (Fulfilled result, mkWorld (users w) (log w ++ [GetSession])) /\
     success result = false) /\
  (forall (k : string) (row : ProfileData),
      users w !! k = Some row ->
      users (snd (handleGoogleCallback toUpperCase backend w)) !! k = Some row).
Proof.
  split; [| split; [| split; [| split]]].
  - intros user (r & s & Hr & He & Hs & Hu) [Hsel Hins] Hnone. run_callback.
    repeat (rewrite ?Hr, ?He, ?Hs, ?Hu, ?Hsel, ?Hins, ?Hnone; simpl).
    now rewrite <- !app_assoc.
  - intros user e (r & s & Hr & He & Hs & Hu) Hsel Hcode. run_callback.
    apply String.eqb_neq in Hcode.
    repeat (rewrite ?Hr, ?He, ?Hs, ?Hu, ?Hsel, ?Hcode; simpl).
    now rewrite <- !app_assoc.
  - intros user row (r & s & Hr & He & Hs & Hu) Hsel Hsome. run_callback.
    repeat (rewrite ?Hr, ?He, ?Hs, ?Hu, ?Hsel, ?Hsome; simpl).
    now rewrite <- !app_assoc.
  - intros (r & Hr & Hnone). run_callback. rewrite Hr. simpl.
    destruct (sessionError r); [eexists; split; reflexivity |].
    rewrite Hnone. eexists; split; reflexivity.
  - apply handleGoogleCallback_keeps_rows.
Qed.

End ProfileFacts.

(** ** Evaluation on the sample data *)

Example trim_strips_both_ends : JS.trim "  Late bus " = "Late bus".
Proof. reflexivity. Qed.

Example trim_of_blanks_is_empty : JS.trim "  " = EmptyString.
Proof. reflexivity. Qed.

Example includes_inside : JS.includes "bot - muradpur - oxygen" "murad" = true.
Proof. reflexivity. Qed.

Example includes_is_case_sensitive : JS.includes "AK Khan" "ak khan" = false.
Proof. reflexivity. Qed.

Example substring_first_eight : JS.substring "3f2a9c1e-77aa" 0 8 = "3f2a9c1e".
Proof. reflexivity. Qed.

Example substring_of_short_id : JS.substring "abc" 0 8 = "abc".
Proof. reflexivity. Qed.

Example filter_by_text :
  filteredSchedules JS.ascii_toLowerCase Sample.schedules "ak khan" "all"
  = [Sample.friday_trip; Sample.evening].
Proof. reflexivity. Qed.

Example filter_by_friday :
  filteredSchedules JS.ascii_toLowerCase Sample.schedules "IIUC" "friday"
  = [Sample.friday_trip].
Proof. reflexivity. Qed.

Example filter_by_regular :
  filteredSchedules JS.ascii_toLowerCase Sample.schedules EmptyString "regular"
  = [Sample.morning; Sample.evening].
Proof. reflexivity. Qed.

Example filter_unknown_category :
  filteredSchedules JS.ascii_toLowerCase Sample.schedules EmptyString "Friday" = [].
Proof. reflexivity. Qed.

(** The filter on the sample heap: the theorem applies, and the new array
    holds the two schedules on the AK Khan route. *)
Lemma filteredSchedules_pure_total_witness :
  Heap.read Sample.heap 0 = Some Sample.schedules /\
  exists (h1 : Heap.t) (r1 : nat),
    filteredSchedules_on_heap JS.ascii_toLowerCase Sample.heap 0 "ak khan" "all"
    = Some (h1, r1) /\
    Heap.read h1 r1 = Some [Sample.friday_trip; Sample.evening] /\
    Heap.read h1 0 = Some Sample.schedules.
Proof.
  split; [vm_compute; reflexivity |].
  destruct (filteredSchedules_pure_total JS.ascii_toLowerCase Sample.heap 0
              Sample.schedules "ak khan" "all")
    as (h1 & r1 & h2 & r2 & Hrun & _ & Hres & _ & _ & _ & _ & Hin & _).
  - vm_compute; reflexivity.
  - exists h1, r1. split; [exact Hrun |]. split; [exact Hres | exact Hin].
Defined.

(** A complaint with a title and a description of 8 characters: both are
    non-empty after trimming, and the handler rejects it. *)
Lemma short_description_is_rejected :
  JS.trim (ComplaintForm.title Sample.short_complaint) = "Late bus" /\
  JS.trim (ComplaintForm.description Sample.short_complaint) = "Too late" /\
  Dashboard.submitted
    (Dashboard.handleComplaintSubmit None Sample.accepting)
    (Sample.dashboard Sample.short_complaint) = false /\
  Dashboard.requests_of
    (Dashboard.handleComplaintSubmit None Sample.accepting)
    (Sample.dashboard Sample.short_complaint) = [] /\
  Dashboard.complaintError
    (Dashboard.state_after
       (Dashboard.handleComplaintSubmit None Sample.accepting)
       (Sample.dashboard Sample.short_complaint))
  = "Please provide a more detailed description (at least 10 characters)".
Proof. repeat split. Qed.

Example long_complaint_is_submitted :
  Dashboard.requests_of
    (Dashboard.handleComplaintSubmit None Sample.accepting)
    (Sample.dashboard Sample.long_complaint)
  = [Dashboard.InsertComplaint
       (ComplaintInsert.mk None "Late bus"
          "The 7:00 AM bus from BOT left 40 minutes late."
          Category.delay Priority.high (Some "BOT to IIUC") None);
     Dashboard.SelectSchedules "gender.is.null,gender.eq.undefined";
     Dashboard.SelectFeedback None;
     Dashboard.SelectComplaints None;
     Dashboard.SetTimeout_clearComplaintSuccess 5000] /\
  Dashboard.complaintForm
    (Dashboard.state_after
       (Dashboard.handleComplaintSubmit None Sample.accepting)
       (Sample.dashboard Sample.long_complaint))
  = ComplaintForm.initial.
Proof. split; reflexivity. Qed.

Example refused_complaint_keeps_the_form :
  Dashboard.complaintForm
    (Dashboard.state_after
       (Dashboard.handleComplaintSubmit None Sample.refusing)
       (Sample.dashboard Sample.long_complaint))
  = Sample.long_complaint /\
  Dashboard.complaintError
    (Dashboard.state_after
       (Dashboard.handleComplaintSubmit None Sample.refusing)
       (Sample.dashboard Sample.long_complaint))
  = "Failed to submit complaint: new row violates row-level security policy".
Proof. split; reflexivity. Qed.

(** A provider that is not enabled: the lemma applies and selects the
    first explanation. *)
Lemma signInWithGoogle_classifies_witness :
  Auth.configured Sample.config = true /\
  exists result : Auth.SignInResult,
    Supabase.signInWithGoogle Sample.config Sample.origin
      (Sample.failing_sdk Sample.provider_disabled) []
    = (Fulfilled result, [] ++ [Supabase.oauthRequest Sample.origin]) /\
    Supabase.classified_by_substring Sample.provider_disabled result.
Proof.
  split; [reflexivity |].
  apply (signInWithGoogle_classifies Sample.config Sample.origin
           (Sample.failing_sdk Sample.provider_disabled)
           (Auth.mkOAuthResponse (Auth.mkOAuthData None) (Some Sample.provider_disabled))
           Sample.provider_disabled []); reflexivity.
Defined.

Example provider_disabled_result :
  Supabase.classify Sample.provider_disabled
  = Auth.failure Supabase.msg_not_enabled (Some true).
Proof. reflexivity. Qed.

Example invalid_grant_result :
  Supabase.classify Sample.invalid_grant
  = Auth.failure Supabase.msg_invalid (Some true).
Proof. reflexivity. Qed.

(** The copy with profile creation has no check for [invalid]: the same
    error falls through to its generic message. *)
Example invalid_grant_result_in_profile_copy :
  GoogleProfile.classify Sample.invalid_grant
  = Auth.failure
      "Google Sign-In failed: invalid request: bad token. Please try again or contact support."
      None.
Proof. reflexivity. Qed.

Example profile_of_google_user :
  GoogleProfile.profileData JS.ascii_toUpperCase Sample.google_user
  = GoogleProfile.mkProfileData "3f2a9c1e-77aa-4c1b-9d2e-5b6f00c0ffee"
      (Some "student@example.com") "Test Student" "GOOGLE_3F2A9C1E"
      EmptyString Gender.Male Role.student.
Proof. reflexivity. Qed.

(** The session holds a user, the [users] table has no row for it, and
    the database refuses the lookup: the callback returns failure, sends
    no insert and the table is still empty. *)
Lemma refused_lookup_creates_no_profile :
  GoogleProfile.getSession_response Sample.lookup_refused = Sample.signed_in /\
  GoogleProfile.users Sample.empty_world
    !! GoogleProfile.id Sample.google_user = None /\
  GoogleProfile.handleGoogleCallback JS.ascii_toUpperCase
    Sample.lookup_refused Sample.empty_world
  = (Fulfilled
       (GoogleProfile.mkCallbackResult false None
          (Some (GoogleProfile.OfDatabase Sample.permission_denied))),
     GoogleProfile.mkWorld ∅
       [GoogleProfile.GetSession;
        GoogleProfile.SelectUser (GoogleProfile.id Sample.google_user)]).
Proof. repeat split. Qed.

Example working_backend_creates_the_profile :
  GoogleProfile.handleGoogleCallback JS.ascii_toUpperCase
    Sample.working Sample.empty_world
  = (Fulfilled (GoogleProfile.mkCallbackResult true (Some Sample.google_user) None),
     GoogleProfile.mkWorld
       (<[GoogleProfile.id Sample.google_user :=
            GoogleProfile.profileData JS.ascii_toUpperCase Sample.google_user]> ∅)
       [GoogleProfile.GetSession;
        GoogleProfile.SelectUser (GoogleProfile.id Sample.google_user);
        GoogleProfile.InsertUser
          (GoogleProfile.profileData JS.ascii_toUpperCase Sample.google_user)]).
Proof. vm_compute. reflexivity. Qed.


(* ===================================================================== *)
(** * Part III: further properties of the code                            *)
(* ===================================================================== *)

(** ** Substrings *)

Lemma append_empty_inv (a b : string) :
  a +:+ b = EmptyString -> a = EmptyString /\ b = EmptyString.
Proof.
  destruct a as [|c a]; [intros H; now split |].
  rewrite append_cons. discriminate.
Qed.

Lemma IsSubstring_trans (a b c : string) :
  JS.IsSubstring a b -> JS.IsSubstring b c -> JS.IsSubstring a c.
Proof.
  intros (p1 & q1 & ->) (p2 & q2 & ->).
  exists (p2 +:+ p1), (q1 +:+ q2). now rewrite !append_assoc.
Qed.

Lemma includes_trans (s mid sub : string) :
  JS.includes s mid = true -> JS.includes mid sub = true ->
  JS.includes s sub = true.
Proof.
  rewrite !includes_spec. intros H1 H2. eapply IsSubstring_trans; eassumption.
Qed.

Lemma includes_in_empty (sub : string) :
  JS.includes EmptyString sub = true -> sub = EmptyString.
Proof.
  rewrite includes_spec. intros (pre & post & H). symmetry in H.
  apply append_empty_inv in H as [_ H]. now apply append_empty_inv in H as [H _].
Qed.

(** ** Lists *)

Lemma filter_ext_bool {A} (f g : A -> bool) (l : list A) :
  (forall x, f x = g x) -> List.filter f l = List.filter g l.
Proof.
  intros H. induction l as [|x l IH]; simpl; [reflexivity |].
  now rewrite H, IH.
Qed.

Lemma filter_twice {A} (f g : A -> bool) (l : list A) :
  List.filter g (List.filter f l) = List.filter (fun x => f x && g x) l.
Proof.
  induction l as [|x l IH]; simpl; [reflexivity |].
  destruct (f x); simpl; [destruct (g x) |]; now rewrite IH.
Qed.

Lemma filter_sublist_mono {A} (f g : A -> bool) (l : list A) :
  (forall x, f x = true -> g x = true) ->
  List.filter f l `sublist_of` List.filter g l.
Proof.
  intros H. induction l as [|x l IH]; simpl; [constructor |].
  destruct (f x) eqn:Hf.
  - rewrite (H x Hf). now constructor.
  - destruct (g x); [now constructor | exact IH].
Qed.

Lemma filter_none {A} (f : A -> bool) (l : list A) :
  (forall x, f x = false) -> List.filter f l = [].
Proof.
  intros H. induction l as [|x l IH]; simpl; [reflexivity |]. now rewrite H.
Qed.

(** ** More on the schedule filter *)

Section ScheduleFilterAlgebra.

Variable toLowerCase : string -> string.

Lemma matchesSearch_empty_lower (searchTerm : string) (schedule : BusSchedule.t) :
  toLowerCase searchTerm = EmptyString ->
  matchesSearch toLowerCase searchTerm schedule = true.
Proof.
  intros H. unfold matchesSearch. rewrite H, !includes_empty.
  now rewrite !orb_true_r.
Qed.

(** X1. The search ignores case: two search terms with the same
    lowercase form select the same schedules, for every category. *)
Theorem search_ignores_case
    (schedules : list BusSchedule.t) (term1 term2 filterType : string) :
  toLowerCase EmptyString = EmptyString ->
  toLowerCase term1 = toLowerCase term2 ->
  filteredSchedules toLowerCase schedules term1 filterType
  = filteredSchedules toLowerCase schedules term2 filterType.
Proof.
  intros Hempty Hsame. unfold filteredSchedules. apply filter_ext_bool.
  intros schedule. unfold filterCallback. f_equal.
  destruct (String.eqb term1 EmptyString) eqn:H1.
  - apply String.eqb_eq in H1. subst term1.
    rewrite !matchesSearch_empty_lower; congruence.
  - destruct (String.eqb term2 EmptyString) eqn:H2.
    + apply String.eqb_eq in H2. subst term2.
      rewrite !matchesSearch_empty_lower; congruence.
    + unfold matchesSearch. now rewrite H1, H2, Hsame.
Qed.

Lemma matchesSearch_narrows (shorter longer : string) (schedule : BusSchedule.t) :
  toLowerCase EmptyString = EmptyString ->
  JS.includes (toLowerCase longer) (toLowerCase shorter) = true ->
  matchesSearch toLowerCase longer schedule = true ->
  matchesSearch toLowerCase shorter schedule = true.
Proof.
  intros Hempty Hinc. unfold matchesSearch at 1.
  rewrite !orb_true_iff, String.eqb_eq.
  intros [[[[H | H] | H] | H] | H].
  - subst longer. rewrite Hempty in Hinc.
    apply matchesSearch_empty_lower. now apply includes_in_empty.
  - unfold matchesSearch. rewrite (includes_trans _ _ _ H Hinc).
    now rewrite !orb_true_r.
  - unfold matchesSearch. rewrite (includes_trans _ _ _ H Hinc).
    now rewrite !orb_true_r.
  - unfold matchesSearch. rewrite (includes_trans _ _ _ H Hinc).
    now rewrite !orb_true_r.
  - unfold matchesSearch. rewrite (includes_trans _ _ _ H Hinc).
    now rewrite !orb_true_r.
Qed.

(** X2. Typing more never adds results: when the search term [shorter]
    occurs, ignoring case, in the term [longer], the schedules found for
    [longer] are a subsequence of those found for [shorter]. *)
Theorem longer_search_term_narrows
    (schedules : list BusSchedule.t) (shorter longer filterType : string) :
  toLowerCase EmptyString = EmptyString ->
  JS.includes (toLowerCase longer) (toLowerCase shorter) = true ->
  filteredSchedules toLowerCase schedules longer filterType
    `sublist_of` filteredSchedules toLowerCase schedules shorter filterType.
Proof.
  intros Hempty Hinc. unfold filteredSchedules. apply filter_sublist_mono.
  intros schedule. unfold filterCallback. rewrite !andb_true_iff.
  intros [Hs Hf]. split; [| exact Hf].
  eapply matchesSearch_narrows; eassumption.
Qed.

End ScheduleFilterAlgebra.

Section ScheduleFilterCategories.

Variable toLowerCase : string -> string.

(** X3. When every schedule is of type [Regular] or [Friday], the
    categories [regular] and [friday] split what [all] shows: the list
    for [all] is a rearrangement of the list for [regular] followed by
    the list for [friday], so the two counts add up to the count for
    [all]. *)
Theorem regular_and_friday_split_all
    (schedules : list BusSchedule.t) (searchTerm : string) :
  Forall (fun schedule =>
            BusSchedule.scheduleType schedule = "Regular" \/
            BusSchedule.scheduleType schedule = "Friday") schedules ->
  filteredSchedules toLowerCase schedules searchTerm "all"
    ≡ₚ filteredSchedules toLowerCase schedules searchTerm "regular"
       ++ filteredSchedules toLowerCase schedules searchTerm "friday" /\
  length (filteredSchedules toLowerCase schedules searchTerm "all")
  = length (filteredSchedules toLowerCase schedules searchTerm "regular")
    + length (filteredSchedules toLowerCase schedules searchTerm "friday").
Proof.
  intros Htypes.
  assert (Hperm :
    filteredSchedules toLowerCase schedules searchTerm "all"
      ≡ₚ filteredSchedules toLowerCase schedules searchTerm "regular"
         ++ filteredSchedules toLowerCase schedules searchTerm "friday").
  { unfold filteredSchedules, filterCallback.
    induction Htypes as [|schedule l Htype _ IH]; simpl; [reflexivity |].
    destruct (matchesSearch toLowerCase searchTerm schedule); simpl; [| exact IH].
    unfold matchesFilter. simpl.
    destruct Htype as [-> | ->]; simpl.
    - now rewrite IH.
    - rewrite IH. apply Permutation_middle. }
  split; [exact Hperm |].
  rewrite Hperm. apply length_app.
Qed.

(** X4. A filter type other than [all], [regular] and [friday] (a
    capitalised [Friday], say) shows no schedule at all. *)
Theorem unknown_filter_type_shows_nothing
    (schedules : list BusSchedule.t) (searchTerm filterType : string) :
  filterType <> "all" -> filterType <> "regular" -> filterType <> "friday" ->
  filteredSchedules toLowerCase schedules searchTerm filterType = [].
Proof.
  intros Hall Hregular Hfriday. unfold filteredSchedules. apply filter_none.
  intros schedule. unfold filterCallback, matchesFilter.
  apply String.eqb_neq in Hall, Hregular, Hfriday.
  rewrite Hall, Hregular, Hfriday. apply andb_false_r.
Qed.

(** X5. The two controls compose: searching first and choosing the
    category afterwards gives the list both give at once, and filtering
    a filtered list again with the same term and category changes
    nothing. *)
Theorem search_then_category
    (schedules : list BusSchedule.t) (searchTerm filterType : string) :
  filteredSchedules toLowerCase
    (filteredSchedules toLowerCase schedules searchTerm "all")
    EmptyString filterType
  = filteredSchedules toLowerCase schedules searchTerm filterType /\
  filteredSchedules toLowerCase
    (filteredSchedules toLowerCase schedules searchTerm filterType)
    searchTerm filterType
  = filteredSchedules toLowerCase schedules searchTerm filterType.
Proof.
  unfold filteredSchedules. rewrite !filter_twice. split.
  - apply filter_ext_bool. intros schedule. unfold filterCallback.
    simpl. now rewrite andb_true_r.
  - apply filter_ext_bool. intros schedule.
    now destruct (filterCallback toLowerCase searchTerm filterType schedule).
Qed.

End ScheduleFilterCategories.

Lemma ascii_lower_empty : JS.ascii_toLowerCase EmptyString = EmptyString.
Proof. reflexivity. Qed.

Lemma search_ignores_case_witness :
  JS.ascii_toLowerCase "IIUC" = JS.ascii_toLowerCase "iiuc" /\
  filteredSchedules JS.ascii_toLowerCase Sample.schedules "IIUC" "regular"
  = filteredSchedules JS.ascii_toLowerCase Sample.schedules "iiuc" "regular".
Proof.
  split; [reflexivity |].
  apply (search_ignores_case JS.ascii_toLowerCase Sample.schedules "IIUC" "iiuc" "regular");
    reflexivity.
Defined.

Lemma longer_search_term_narrows_witness :
  JS.includes (JS.ascii_toLowerCase "AK Khan") (JS.ascii_toLowerCase "khan") = true /\
  filteredSchedules JS.ascii_toLowerCase Sample.schedules "AK Khan" "all"
    `sublist_of` filteredSchedules JS.ascii_toLowerCase Sample.schedules "khan" "all".
Proof.
  split; [reflexivity |].
  apply (longer_search_term_narrows JS.ascii_toLowerCase Sample.schedules
           "khan" "AK Khan" "all"); reflexivity.
Defined.

Lemma regular_and_friday_split_all_witness :
  length (filteredSchedules JS.ascii_toLowerCase Sample.schedules "iiuc" "all")
  = length (filteredSchedules JS.ascii_toLowerCase Sample.schedules "iiuc" "regular")
    + length (filteredSchedules JS.ascii_toLowerCase Sample.schedules "iiuc" "friday").
Proof.
  apply (regular_and_friday_split_all JS.ascii_toLowerCase Sample.schedules "iiuc").
  repeat first
    [ apply List.Forall_nil
    | apply List.Forall_cons; [first [left; reflexivity | right; reflexivity] |] ].
Defined.

Lemma unknown_filter_type_shows_nothing_witness :
  filteredSchedules JS.ascii_toLowerCase Sample.schedules EmptyString "Friday" = [].
Proof.
  apply (unknown_filter_type_shows_nothing JS.ascii_toLowerCase Sample.schedules
           EmptyString "Friday"); discriminate.
Defined.

(** ** Refreshing the dashboard *)

Section FetchDataFacts.

Import Dashboard.

Variable userProfile : option User.t.
Variable backend : Backend.

Ltac run_fetch :=
  unfold fetchData, Eff.try_finally, Eff.try_catch, Eff.bind, Eff.ret, Eff.throw,
    Eff.modify, request, setSchedules, setFeedback, setComplaints, setLoading,
    update; simpl.

(** X6. [fetchData] never throws and always ends with [loading] false.
    It asks for the schedules first, then for the feedback, then for the
    complaints, and sends nothing else; a later query is left out only
    when an earlier step threw: nothing follows the schedules query
    exactly when the schedules step threw, the feedback query alone
    follows exactly when the feedback query was rejected after that, and
    otherwise all three are sent. *)
Theorem fetchData_completes (w : World) :
  exists (w' : World) (later : list Request),
    fetchData userProfile backend w = (Fulfilled tt, w') /\
    loading (state w') = false /\
    requests w' = requests w ++ SelectSchedules (gender_filter userProfile) :: later /\
    ((later = [] /\ schedules_step_throws backend) \/
     (later = [SelectFeedback (userProfile_id userProfile)] /\
      ~ schedules_step_throws backend /\ feedback_step_throws backend) \/
     (later = [SelectFeedback (userProfile_id userProfile);
               SelectComplaints (userProfile_id userProfile)] /\
      ~ schedules_step_throws backend /\ ~ feedback_step_throws backend)).
Proof.
  run_fetch. unfold schedules_step_throws, feedback_step_throws.
  destruct (schedules_response backend) as [[d1 [e1|]]|reason1] eqn:H1;
    [| destruct d1 |]; simpl;
    try (destruct (feedback_response backend) as [[d2 [e2|]]|reason2] eqn:H2; simpl);
    try (destruct (complaints_response backend) as [[d3 [e3|]]|reason3] eqn:H3; simpl);
    eexists _, _; (split; [reflexivity |]); simpl;
    (split; [reflexivity |]); rewrite <- ?app_assoc; simpl;
    (split; [reflexivity |]);
    first
      [ left; split; [reflexivity |];
        first [ left; eexists; reflexivity
              | right; eexists; repeat split; reflexivity ]
      | right; left; split; [reflexivity |]; split;
        [ intros [[x [=]] | (x & [= <-] & Hx1 & Hx2)]; discriminate
        | eexists; reflexivity ]
      | right; right; split; [reflexivity |]; split;
        [ intros [[x [=]] | (x & [= <-] & Hx1 & Hx2)]; discriminate
        | intros [x [=]] ] ].
Qed.

(** X7. When the three queries are answered with data, the dashboard
    shows exactly what was answered: the schedule rows converted one by
    one, in order, and the feedback and complaint rows as they came; the
    filter [friday] then shows the rows whose [schedule_type] is
    [Friday], converted, in the order of the answer. *)
Theorem fetchData_shows_the_answers (w : World)
    (schedule_rows : list BusScheduleDB.t)
    (feedback_rows : list Feedback.t) (complaint_rows : list Complaint.t) :
  schedules_response backend = Fulfilled (QueryResult.mk (Some schedule_rows) None) ->
  feedback_response backend = Fulfilled (QueryResult.mk (Some feedback_rows) None) ->
  complaints_response backend = Fulfilled (QueryResult.mk (Some complaint_rows) None) ->
  let st' := state (snd (fetchData userProfile backend w)) in
  schedules st' = map convertSchedule schedule_rows /\
  feedback st' = feedback_rows /\
  complaints st' = complaint_rows /\
  (forall toLowerCase : string -> string,
      filteredSchedules toLowerCase (schedules st') EmptyString "friday"
      = map convertSchedule
          (List.filter
             (fun row => String.eqb (BusScheduleDB.schedule_type row) "Friday")
             schedule_rows)).
Proof.
  intros H1 H2 H3. run_fetch. rewrite H1. simpl. rewrite H2. simpl.
  rewrite H3. simpl. repeat split. intros toLowerCase.
  clear H1. unfold filteredSchedules.
  induction schedule_rows as [|row rows IH]; simpl;
    [reflexivity |].
  unfold filterCallback at 1. unfold matchesSearch, matchesFilter. simpl.
  destruct (String.eqb (BusScheduleDB.schedule_type row) "Friday"); simpl;
    now rewrite IH.
Qed.

(** X8. A failed schedules query does not stop the refresh: the schedule
    list stays as it was, and the feedback and the complaints are still
    requested. *)
Theorem fetchData_survives_schedules_error (w : World)
    (data : option (list BusScheduleDB.t)) (error : PostgrestError.t) :
  schedules_response backend = Fulfilled (QueryResult.mk data (Some error)) ->
  let w' := snd (fetchData userProfile backend w) in
  schedules (state w') = schedules (state w) /\
  exists later : list Request,
    requests w'
    = requests w ++ SelectSchedules (gender_filter userProfile)
                    :: SelectFeedback (userProfile_id userProfile) :: later.
Proof.
  intros H1. run_fetch. rewrite H1. simpl.
  destruct (feedback_response backend) as [[d2 [e2|]]|]; simpl;
    try (destruct (complaints_response backend) as [[d3 [e3|]]|]; simpl);
    (split; [reflexivity |]); eexists; rewrite <- ?app_assoc; reflexivity.
Qed.

(** X9. A schedules answer with neither data nor error stops the refresh:
    mapping over the missing data throws, so the feedback and the
    complaints are not requested and the three lists stay as they were;
    [loading] is still reset. *)
Theorem fetchData_stops_on_missing_schedules (w : World) :
  schedules_response backend = Fulfilled (QueryResult.mk None None) ->
  fetchData userProfile backend w
  = (Fulfilled tt,
     mkWorld
       (mkState (schedules (state w)) (feedback (state w)) (complaints (state w))
          false (showComplaintForm (state w)) (complaintForm (state w))
          (complaintLoading (state w)) (complaintSuccess (state w))
          (complaintError (state w)))
       (requests w ++ [SelectSchedules (gender_filter userProfile)])).
Proof. intros H1. run_fetch. now rewrite H1. Qed.

(** X10. A feedback answer with neither data nor error does not stop the
    refresh: the feedback list becomes empty and the complaints are still
    requested. *)
Theorem fetchData_empties_missing_feedback (w : World)
    (schedule_rows : list BusScheduleDB.t) :
  schedules_response backend = Fulfilled (QueryResult.mk (Some schedule_rows) None) ->
  feedback_response backend = Fulfilled (QueryResult.mk None None) ->
  let w' := snd (fetchData userProfile backend w) in
  feedback (state w') = [] /\
  requests w'
  = requests w ++ [SelectSchedules (gender_filter userProfile);
                   SelectFeedback (userProfile_id userProfile);
                   SelectComplaints (userProfile_id userProfile)].
Proof.
  intros H1 H2. run_fetch. rewrite H1. simpl. rewrite H2. simpl.
  destruct (complaints_response backend) as [[d3 [e3|]]|]; simpl;
    rewrite <- ?app_assoc; split; reflexivity.
Qed.

End FetchDataFacts.

(** ** Trimming *)

Lemma trimStart_cases (s : string) :
  JS.trimStart s = EmptyString \/
  exists (c : ascii) (r : string),
    JS.trimStart s = String c r /\ JS.isWhiteSpace c = false.
Proof.
  induction s as [|c s IH]; simpl; [now left |].
  destruct (JS.isWhiteSpace c) eqn:Hc; [exact IH |].
  right. now exists c, s.
Qed.

Lemma trimEnd_cons (c : ascii) (r : string) :
  JS.isWhiteSpace c = false ->
  exists r' : string, JS.trimEnd (String c r) = String c r'.
Proof.
  intros Hc. simpl. destruct (JS.trimEnd r); [rewrite Hc |]; eauto.
Qed.

Lemma trimEnd_idempotent (s : string) : JS.trimEnd (JS.trimEnd s) = JS.trimEnd s.
Proof.
  induction s as [|c s IH]; [reflexivity |]. simpl.
  destruct (JS.trimEnd s) as [|d t] eqn:Ht.
  - destruct (JS.isWhiteSpace c) eqn:Hc; simpl; [reflexivity | now rewrite Hc].
  - change (JS.trimEnd (String c (String d t))) with
      (match JS.trimEnd (String d t) with
       | EmptyString =>
           if JS.isWhiteSpace c then EmptyString else String c EmptyString
       | String a b => String c (String a b)
       end).
    now rewrite IH.
Qed.

Lemma trim_idempotent (s : string) : JS.trim (JS.trim s) = JS.trim s.
Proof.
  unfold JS.trim.
  destruct (trimStart_cases s) as [-> | (c & r & -> & Hc)]; [reflexivity |].
  destruct (trimEnd_cons c r Hc) as [r' Hr]. rewrite Hr.
  simpl JS.trimStart. rewrite Hc, <- Hr. apply trimEnd_idempotent.
Qed.

Lemma trim_or_null_trimmed (s r : string) :
  Dashboard.trim_or_null s = Some r -> JS.trim r = r /\ r <> EmptyString.
Proof.
  unfold Dashboard.trim_or_null.
  destruct (JS.truthy (JS.trim s)) eqn:Ht; [| discriminate].
  intros [= <-]. split; [apply trim_idempotent | now apply truthy_iff].
Qed.

(** ** More on the complaint form *)

Lemma no_insert_among (l : list Dashboard.Request) (row : ComplaintInsert.t) :
  existsb Dashboard.is_insert l = false -> ~ In (Dashboard.InsertComplaint row) l.
Proof.
  induction l as [|x l IH]; simpl; [tauto |].
  intros Hf [-> | Hin]; [discriminate |].
  apply orb_false_iff in Hf as [_ Hf]. now apply IH.
Qed.

Section ComplaintOutcomes.

Import Dashboard.

Variable userProfile : option User.t.
Variable backend : Backend.

(** What a refresh does to the parts of the world the complaint handler
    cares about. *)
Lemma fetchData_effect (w : World) :
  exists (w' : World) (later : list Request),
    fetchData userProfile backend w = (Fulfilled tt, w') /\
    complaintForm (state w') = complaintForm (state w) /\
    complaintError (state w') = complaintError (state w) /\
    complaintSuccess (state w') = complaintSuccess (state w) /\
    showComplaintForm (state w') = showComplaintForm (state w) /\
    complaintLoading (state w') = complaintLoading (state w) /\
    requests w' = requests w ++ SelectSchedules (gender_filter userProfile) :: later /\
    existsb is_insert later = false.
Proof.
  unfold fetchData, Eff.try_finally, Eff.try_catch, Eff.bind, Eff.ret, Eff.throw,
    Eff.modify, request, setSchedules, setFeedback, setComplaints, setLoading,
    update; simpl.
  destruct (schedules_response backend) as [[d1 [e1|]]|];
    [| destruct d1 |]; simpl;
    try (destruct (feedback_response backend) as [[d2 [e2|]]|]; simpl);
    try (destruct (complaints_response backend) as [[d3 [e3|]]|]; simpl);
    eexists _, _; (split; [reflexivity |]); simpl;
    rewrite <- ?app_assoc; simpl;
    repeat (split; [reflexivity |]); reflexivity.
Qed.

Local Opaque Dashboard.fetchData.

Ltac unfold_submit :=
  unfold submitted, requests_of, state_after, run, handleComplaintSubmit,
    passes_validation, insert_succeeds,
    Eff.try_finally, Eff.try_catch, Eff.bind, Eff.ret, Eff.get, Eff.modify,
    request, setShowComplaintForm, setComplaintForm, setComplaintLoading,
    setComplaintSuccess, setComplaintError, update; simpl.

Ltac refresh_step :=
  match goal with
  | |- context [fetchData userProfile backend ?w] =>
      let w' := fresh "w'" in
      let later := fresh "later" in
      destruct (fetchData_effect w)
        as (w' & later & -> & Hform & Herr & Hsucc & Hshow & Hload & Hreq & Hnone);
      simpl in *
  end.

Ltac submit_cases st :=
  unfold_submit;
  destruct (JS.truthy (JS.trim (ComplaintForm.title (complaintForm st)))) eqn:Htitle;
    simpl;
    [ destruct (JS.truthy (JS.trim (ComplaintForm.description (complaintForm st))))
        eqn:Hdesc; simpl;
      [ destruct (String.length
                    (JS.trim (ComplaintForm.description (complaintForm st))) <? 10)
          eqn:Hlen; simpl;
        [ | destruct (complaint_insert_response backend) as [[d [e|]]|] eqn:Hins;
            simpl; [ | refresh_step | ] ]
      | ]
    | ].

(** X11. Every complaint row the handler sends is clean: it carries the
    id of the signed-in user, its title and description are trimmed, the
    title is not empty, the description has at least 10 characters, and
    an optional field is either missing or a trimmed non-empty text,
    never an empty string. *)
Theorem complaint_row_is_clean (st : State) (row : ComplaintInsert.t) :
  In (InsertComplaint row)
     (requests_of (handleComplaintSubmit userProfile backend) st) ->
  ComplaintInsert.user_id row = userProfile_id userProfile /\
  JS.trim (ComplaintInsert.title row) = ComplaintInsert.title row /\
  ComplaintInsert.title row <> EmptyString /\
  JS.trim (ComplaintInsert.description row) = ComplaintInsert.description row /\
  10 <= String.length (ComplaintInsert.description row) /\
  (forall r : string,
      ComplaintInsert.bus_route row = Some r -> JS.trim r = r /\ r <> EmptyString) /\
  (forall r : string,
      ComplaintInsert.incident_time row = Some r -> JS.trim r = r /\ r <> EmptyString).
Proof.
  assert (Hclean :
    passes_validation (complaintForm st) = true ->
    forall row', row' = complaintRow userProfile (complaintForm st) ->
    ComplaintInsert.user_id row' = userProfile_id userProfile /\
    JS.trim (ComplaintInsert.title row') = ComplaintInsert.title row' /\
    ComplaintInsert.title row' <> EmptyString /\
    JS.trim (ComplaintInsert.description row') = ComplaintInsert.description row' /\
    10 <= String.length (ComplaintInsert.description row') /\
    (forall r : string,
        ComplaintInsert.bus_route row' = Some r -> JS.trim r = r /\ r <> EmptyString) /\
    (forall r : string,
        ComplaintInsert.incident_time row' = Some r -> JS.trim r = r /\ r <> EmptyString)).
  { intros Hv row' ->. apply passes_validation_iff in Hv as (Ht & _ & Hl).
    simpl. rewrite !trim_idempotent.
    split; [reflexivity |]. split; [reflexivity |]. split; [exact Ht |].
    split; [reflexivity |]. split; [exact Hl |].
    split; intros r Hr; now apply trim_or_null_trimmed in Hr. }
  revert Hclean. submit_cases st; intros Hclean Hin.
  - destruct Hin.
  - destruct Hin as [[= <-] | []]. now apply Hclean.
  - rewrite Hreq in Hin. simpl in Hin.
    destruct Hin as [[= <-] | [[=] | Hin]]; [now apply Hclean |].
    apply in_app_or in Hin as [Hin | [[=] | []]].
    now apply no_insert_among in Hin.
  - destruct Hin as [[= <-] | []]. now apply Hclean.
  - destruct Hin.
  - destruct Hin.
Qed.

(** X12. After every submission exactly one banner is set, whatever
    was shown before: on success the success text, with no error, the
    form closed and the loading flag down; in every other case no
    success text and an error text, with the form left open or closed as
    it was. *)
Theorem complaint_outcome_is_reported (st : State) :
  (passes_validation (complaintForm st) && insert_succeeds backend = true ->
   complaintSuccess (state_after (handleComplaintSubmit userProfile backend) st)
   = "Your complaint has been submitted successfully! We will review it and get back to you soon." /\
   complaintError (state_after (handleComplaintSubmit userProfile backend) st)
   = EmptyString /\
   showComplaintForm (state_after (handleComplaintSubmit userProfile backend) st)
   = false /\
   complaintLoading (state_after (handleComplaintSubmit userProfile backend) st)
   = false) /\
  (passes_validation (complaintForm st) && insert_succeeds backend = false ->
   complaintSuccess (state_after (handleComplaintSubmit userProfile backend) st)
   = EmptyString /\
   complaintError (state_after (handleComplaintSubmit userProfile backend) st)
   <> EmptyString /\
   showComplaintForm (state_after (handleComplaintSubmit userProfile backend) st)
   = showComplaintForm st).
Proof.
  submit_cases st; (split; [intros Hok | intros Hko]); try discriminate;
    repeat split; try discriminate; congruence.
Qed.

(** X13. The requests of a submission: nothing when a guard fails; the
    insert alone when the insert fails or throws; and after a successful
    insert the refresh of the dashboard, starting with the schedules, and
    then the timer of 5 seconds that clears the success text.  No
    submission sends a second insert. *)
Theorem complaint_requests (st : State) :
  (passes_validation (complaintForm st) = false ->
   requests_of (handleComplaintSubmit userProfile backend) st = []) /\
  (passes_validation (complaintForm st) = true ->
   insert_succeeds backend = false ->
   requests_of (handleComplaintSubmit userProfile backend) st
   = [InsertComplaint (complaintRow userProfile (complaintForm st))]) /\
  (passes_validation (complaintForm st) = true ->
   insert_succeeds backend = true ->
   exists later : list Request,
     requests_of (handleComplaintSubmit userProfile backend) st
     = InsertComplaint (complaintRow userProfile (complaintForm st))
       :: SelectSchedules (gender_filter userProfile)
       :: later ++ [SetTimeout_clearComplaintSuccess 5000] /\
     existsb is_insert later = false).
Proof.
  submit_cases st; repeat split; try discriminate; try reflexivity.
  intros _ _. exists later. rewrite Hreq. split; [reflexivity | exact Hnone].
Qed.

Lemma blank_form_is_rejected (st : State) :
  complaintForm st = ComplaintForm.initial ->
  requests_of (handleComplaintSubmit userProfile backend) st = [] /\
  complaintError (state_after (handleComplaintSubmit userProfile backend) st)
  = "Please provide a title for your complaint" /\
  complaintSuccess (state_after (handleComplaintSubmit userProfile backend) st)
  = EmptyString.
Proof.
  intros Hform. unfold_submit. rewrite Hform. simpl. repeat split.
Qed.

(** X14. A successful submission cannot be repeated by submitting again:
    the form was reset, so the second submission sends nothing, shows the
    error that asks for a title and takes the success text away. *)
Theorem second_submit_is_rejected (st : State) :
  passes_validation (complaintForm st) = true ->
  insert_succeeds backend = true ->
  requests_of (handleComplaintSubmit userProfile backend)
    (state_after (handleComplaintSubmit userProfile backend) st) = [] /\
  complaintError
    (state_after (handleComplaintSubmit userProfile backend)
       (state_after (handleComplaintSubmit userProfile backend) st))
  = "Please provide a title for your complaint" /\
  complaintSuccess
    (state_after (handleComplaintSubmit userProfile backend)
       (state_after (handleComplaintSubmit userProfile backend) st))
  = EmptyString.
Proof.
  intros Hv Hok. apply blank_form_is_rejected.
  destruct (handleComplaintSubmit_sends userProfile backend st Hv) as [_ ->].
  now rewrite Hok.
Qed.

(** X15. The buttons that open the complaint form show a blank form
    without messages, touch neither the lists nor the database, and
    pressing them again changes nothing more; a form opened this way
    cannot be submitted as it is. *)
Theorem openComplaintForm_gives_blank_form (w : World) :
  let w1 := snd (ComplaintButtons.openComplaintForm w) in
  complaintForm (state w1) = ComplaintForm.initial /\
  complaintError (state w1) = EmptyString /\
  complaintSuccess (state w1) = EmptyString /\
  showComplaintForm (state w1) = true /\
  schedules (state w1) = schedules (state w) /\
  feedback (state w1) = feedback (state w) /\
  complaints (state w1) = complaints (state w) /\
  requests w1 = requests w /\
  snd (ComplaintButtons.openComplaintForm w1) = w1 /\
  requests_of (handleComplaintSubmit userProfile backend) (state w1) = [].
Proof.
  cbv zeta. repeat (split; [reflexivity |]).
  now apply blank_form_is_rejected.
Qed.

End ComplaintOutcomes.

(** ** The feedback form *)

Section FeedbackFacts.

Import FeedbackForm.

Variable userProfile : option User.t.
Variable backend : Backend.

Ltac unfold_feedback :=
  unfold run, handleFeedbackSubmit, fetchData_detached,
    Eff.try_finally, Eff.try_catch, Eff.bind, Eff.ret, Eff.get, Eff.modify,
    request, setFeedbackMessage, setFeedbackLoading, setFeedbackSuccess, update;
  simpl.

(** X16. Feedback that is blank after trimming is dropped without a
    trace: nothing is sent, no message is shown and the state is not
    changed at all. *)
Theorem blank_feedback_is_ignored (st : State) :
  JS.trim (feedbackMessage st) = EmptyString ->
  run (handleFeedbackSubmit userProfile backend) st = (Fulfilled tt, mkWorld st []).
Proof.
  intros Hblank. unfold_feedback. rewrite Hblank. reflexivity.
Qed.

(** X17. A failed feedback insert is silent: when the insert returns an
    error or throws, the only request is that insert, with the message
    as typed (not trimmed), and the state is what it was, the text still
    in the box, with the loading flag down; no banner tells the user. *)
Theorem failed_feedback_is_silent (st : State) :
  JS.trim (feedbackMessage st) <> EmptyString ->
  (forall r : QueryResult.t unit,
      feedback_insert_response backend = Fulfilled r -> QueryResult.error r <> None) ->
  run (handleFeedbackSubmit userProfile backend) st
  = (Fulfilled tt,
     mkWorld
       (mkState (dashboard st) (feedbackMessage st) false (feedbackSuccess st))
       [InsertFeedback (Dashboard.userProfile_id userProfile) (feedbackMessage st)]).
Proof.
  intros Hmsg Hfail. apply truthy_iff in Hmsg. unfold_feedback. rewrite Hmsg. simpl.
  destruct (feedback_insert_response backend) as [[d [e|]]|] eqn:Hr; simpl;
    try reflexivity.
  now destruct (Hfail _ eq_refl).
Qed.

(** An accepted feedback: the insert carries the message as typed,
    the box is emptied, the thanks are shown, the dashboard is refreshed
    and the timer of 5 seconds is set; the loading flag is down at the
    end. *)
Theorem accepted_feedback_is_acknowledged (st : State) (data : option unit) :
  JS.trim (feedbackMessage st) <> EmptyString ->
  feedback_insert_response backend = Fulfilled (QueryResult.mk data None) ->
  let refreshed :=
    snd (Dashboard.fetchData userProfile (dashboard_backend backend)
           (Dashboard.mkWorld (dashboard st) [])) in
  run (handleFeedbackSubmit userProfile backend) st
  = (Fulfilled tt,
     mkWorld
       (mkState (Dashboard.state refreshed) EmptyString false
          "Thank you for your feedback! We appreciate your input.")
       [InsertFeedback (Dashboard.userProfile_id userProfile) (feedbackMessage st);
        Refresh (Dashboard.requests refreshed);
        SetTimeout_clearFeedbackSuccess 5000]).
Proof.
  intros Hmsg Hok. apply truthy_iff in Hmsg. unfold_feedback.
  rewrite Hmsg. simpl. rewrite Hok. reflexivity.
Qed.

End FeedbackFacts.

(** ** More on Google sign-in *)

Section SignInFacts.

Variable cfg : Auth.Config.
Variable origin : string.
Variable sdk : Auth.OAuthRequest -> Awaited Auth.OAuthResponse.

Ltac unfold_signIn :=
  unfold Supabase.signInWithGoogle, Eff.try_catch, Eff.bind, Eff.ret,
    Auth.signInWithOAuth; simpl.

(** X18. The OAuth endpoint is called exactly when the client is
    configured: without a URL, without a key or with the placeholder URL
    no call is made and the result asks for setup; otherwise exactly one
    call is made, for the provider [google], with the redirect back to
    [/login?google=success] of the current origin. *)
Theorem oauth_is_called_iff_configured (calls : list Auth.OAuthRequest) :
  (Auth.configured cfg = false ->
   Supabase.signInWithGoogle cfg origin sdk calls
   = (Fulfilled (Auth.failure Supabase.msg_not_configured (Some true)), calls)) /\
  (Auth.configured cfg = true ->
   exists req : Auth.OAuthRequest,
     snd (Supabase.signInWithGoogle cfg origin sdk calls) = calls ++ [req] /\
     Auth.provider req = "google" /\
     Auth.redirectTo req = origin +:+ "/login?google=success").
Proof.
  split; intros Hcfg; unfold_signIn; rewrite Hcfg; simpl; [reflexivity |].
  exists (Supabase.oauthRequest origin).
  destruct (sdk (Supabase.oauthRequest origin)) as [[d [e|]]|]; simpl;
    repeat split.
Qed.

(** X19. With a configured client, a call that returns no error gives
    back its data, without error and without [needsSetup]; a call that
    throws gives the fixed text for unexpected errors, again without
    [needsSetup], and what was thrown is not passed on. *)
Theorem sign_in_outcomes (calls : list Auth.OAuthRequest) :
  Auth.configured cfg = true ->
  (forall data : Auth.OAuthData,
      sdk (Supabase.oauthRequest origin)
      = Fulfilled (Auth.mkOAuthResponse data None) ->
      fst (Supabase.signInWithGoogle cfg origin sdk calls)
      = Fulfilled (Auth.mkSignInResult (Some data) None None)) /\
  (forall reason : string,
      sdk (Supabase.oauthRequest origin) = Thrown reason ->
      fst (Supabase.signInWithGoogle cfg origin sdk calls)
      = Fulfilled (Auth.failure Supabase.msg_unexpected None)).
Proof.
  intros Hcfg. split; intros x Hsdk; unfold_signIn; rewrite Hcfg; simpl;
    now rewrite Hsdk.
Qed.

End SignInFacts.

Lemma invalid_grant_only_fourth : caught_only_by_fourth_check Sample.invalid_grant.
Proof.
  unfold caught_only_by_fourth_check.
  repeat split;
    first
      [ apply neither_iff; reflexivity
      | apply either_iff; reflexivity ].
Qed.

(** X20. The two copies of the error classification differ on whether
    setup is needed exactly on the errors caught only by the check for
    [unauthorized] and [invalid]: on such an error
    [src/lib/supabase.ts] asks for setup and the copy with profile
    creation does not; on every other error the two agree; and such
    errors exist, so the copies do differ. *)
Theorem copies_agree_up_to_fourth_check :
  (forall error : Auth.AuthError,
      caught_only_by_fourth_check error ->
      Auth.needsSetup (Supabase.classify error) = Some true /\
      Auth.needsSetup (GoogleProfile.classify error) = None) /\
  (forall error : Auth.AuthError,
      ~ caught_only_by_fourth_check error ->
      Auth.needsSetup (Supabase.classify error)
      = Auth.needsSetup (GoogleProfile.classify error)) /\
  (forall error : Auth.AuthError,
      Auth.needsSetup (Supabase.classify error)
      <> Auth.needsSetup (GoogleProfile.classify error) <->
      caught_only_by_fourth_check error) /\
  (exists error : Auth.AuthError, caught_only_by_fourth_check error).
Proof.
  assert (Hcases : forall error : Auth.AuthError,
    (caught_only_by_fourth_check error /\
     Auth.needsSetup (Supabase.classify error) = Some true /\
     Auth.needsSetup (GoogleProfile.classify error) = None) \/
    (~ caught_only_by_fourth_check error /\
     Auth.needsSetup (Supabase.classify error)
     = Auth.needsSetup (GoogleProfile.classify error))).
  { intros error.
    unfold caught_only_by_fourth_check, Supabase.classify, GoogleProfile.classify.
    destruct (JS.includes_opt (Auth.message error) "not enabled"
              || JS.includes_opt (Auth.message error) "provider") eqn:H1;
      [apply either_iff in H1; right; split; [tauto | reflexivity] |].
    destruct (JS.includes_opt (Auth.message error) "redirect"
              || JS.includes_opt (Auth.message error) "url") eqn:H2;
      [apply either_iff in H2; right; split; [tauto | reflexivity] |].
    destruct (JS.includes_opt (Auth.message error) "client_id"
              || JS.includes_opt (Auth.message error) "client") eqn:H3;
      [apply either_iff in H3; right; split; [tauto | reflexivity] |].
    apply neither_iff in H1, H2, H3.
    destruct (JS.includes_opt (Auth.message error) "unauthorized"
              || JS.includes_opt (Auth.message error) "invalid") eqn:H4;
      [apply either_iff in H4 | apply neither_iff in H4].
    - left. simpl. tauto.
    - right. split; [tauto | reflexivity]. }
  split; [| split; [| split]].
  - intros error Honly. destruct (Hcases error) as [(_ & HS & HP) | [Hnot _]];
      [now split | contradiction].
  - intros error Hnot. destruct (Hcases error) as [(Honly & _) | [_ Heq]];
      [contradiction | exact Heq].
  - intros error. destruct (Hcases error) as [(Honly & HS & HP) | [Hnot Heq]].
    + split; [intros _; exact Honly | intros _; rewrite HS, HP; discriminate].
    + split; [intros Hne; contradiction | intros Honly; contradiction].
  - exists Sample.invalid_grant. exact invalid_grant_only_fourth.
Qed.

(** ** The configuration check *)

Section ConfigCheckFacts.

Import ConfigCheck.

Variable cfg : Auth.Config.
Variable origin : string.
Variable backend : Backend.

Ltac unfold_check :=
  unfold checkGoogleOAuthConfig, checkGoogleOAuthConfig_session_only,
    getSession, signInWithOAuth,
    Eff.try_catch, Eff.bind, Eff.ret; simpl.

(** X21. [checkGoogleOAuthConfig] never throws; it reports an error text
    exactly when it answers that Google sign-in is not configured; an
    unconfigured client makes it answer without any call, and the test
    OAuth call is made only after a session request that returned no
    error. *)
Theorem config_check_returns (calls : list Call) :
  exists (result : Result) (calls' : list Call),
    checkGoogleOAuthConfig cfg origin backend calls = (Fulfilled result, calls') /\
    (isConfigured result = true <-> error_text result = None) /\
    (Auth.configured cfg = false -> calls' = calls) /\
    (calls' = calls \/
     calls' = calls ++ [GetSession] \/
     (calls' = calls ++ [GetSession; SignInWithOAuth (testRequest origin)] /\
      getSession_response backend = Fulfilled None)).
Proof.
  unfold_check. destruct (Auth.configured cfg); simpl.
  - destruct (getSession_response backend) as [[e|]|reason]; simpl.
    + eexists _, _. split; [reflexivity |]. simpl.
      repeat split; try discriminate; auto.
    + destruct (oauth_response backend (testRequest origin)) as [r|reason]; simpl.
      * eexists _, _. split; [reflexivity |]. simpl. rewrite <- app_assoc.
        repeat split; try discriminate; auto.
      * destruct (_ || _); eexists _, _; (split; [reflexivity |]); simpl;
          rewrite <- app_assoc; repeat split; try discriminate; auto.
    + eexists _, _. split; [reflexivity |]. simpl.
      repeat split; try discriminate; auto.
  - eexists _, _. split; [reflexivity |]. simpl.
    repeat split; try discriminate; auto.
Qed.

(** X22. The test call looks only at what is thrown.  Once the session
    request succeeded, a test OAuth call that returns, with or without
    an error object, makes the check answer that Google sign-in is
    configured; a test call that throws makes it answer so too, unless
    the message thrown contains [not enabled], [provider] or
    [client_id]. *)
Theorem config_check_reads_only_thrown_errors (calls : list Call) :
  Auth.configured cfg = true ->
  getSession_response backend = Fulfilled None ->
  (forall r : Auth.OAuthResponse,
      oauth_response backend (testRequest origin) = Fulfilled r ->
      fst (checkGoogleOAuthConfig cfg origin backend calls)
      = Fulfilled (mkResult true None)) /\
  (forall reason : string,
      oauth_response backend (testRequest origin) = Thrown reason ->
      fst (checkGoogleOAuthConfig cfg origin backend calls)
      = Fulfilled
          (if JS.includes reason "not enabled" || JS.includes reason "provider"
              || JS.includes reason "client_id"
           then mkResult false (Some msg_provider)
           else mkResult true None)).
Proof.
  intros Hcfg Hsession. split; intros x Hoauth; unfold_check;
    rewrite Hcfg; simpl; rewrite Hsession; simpl; rewrite Hoauth; simpl;
    [reflexivity | now destruct (_ || _)].
Qed.

(** X23. The version of the check that tests the session only answers
    that Google sign-in is configured exactly when the client is
    configured and the session request returns without an error; it
    never calls the OAuth endpoint. *)
Theorem session_only_check (calls : list Call) :
  exists (result : Result) (calls' : list Call),
    checkGoogleOAuthConfig_session_only cfg backend calls
    = (Fulfilled result, calls') /\
    (isConfigured result = true <->
     Auth.configured cfg = true /\ getSession_response backend = Fulfilled None) /\
    existsb is_oauth calls' = existsb is_oauth calls.
Proof.
  unfold_check. destruct (Auth.configured cfg); simpl.
  - destruct (getSession_response backend) as [[e|]|reason]; simpl;
      eexists _, _; (split; [reflexivity |]); simpl;
      rewrite ?existsb_app; simpl; rewrite ?orb_false_r;
      (split; [| reflexivity]); split; try discriminate; try tauto;
      intros [_ H]; discriminate.
  - eexists _, _. split; [reflexivity |]. simpl.
    split; [| reflexivity]. split; [discriminate | intros [H _]; discriminate].
Qed.

End ConfigCheckFacts.

(** X24. The check and the sign-in can disagree.  With a configured
    client and a working session, when the OAuth endpoint answers every
    request with an error object whose message contains [provider], the
    check answers that Google sign-in is configured, and the sign-in on
    the same endpoint answers that the provider is not enabled and setup
    is needed. *)
Theorem check_passes_where_sign_in_needs_setup
    (cfg : Auth.Config) (origin : string)
    (sdk : Auth.OAuthRequest -> Awaited Auth.OAuthResponse)
    (error : Auth.AuthError)
    (calls : list ConfigCheck.Call) (oauth_calls : list Auth.OAuthRequest) :
  Auth.configured cfg = true ->
  (forall req : Auth.OAuthRequest,
      exists data : Auth.OAuthData,
        sdk req = Fulfilled (Auth.mkOAuthResponse data (Some error))) ->
  JS.includes_opt (Auth.message error) "provider" = true ->
  fst (ConfigCheck.checkGoogleOAuthConfig cfg origin
         (ConfigCheck.mkBackend (Fulfilled None) sdk) calls)
  = Fulfilled (ConfigCheck.mkResult true None) /\
  fst (Supabase.signInWithGoogle cfg origin sdk oauth_calls)
  = Fulfilled (Auth.failure Supabase.msg_not_enabled (Some true)).
Proof.
  intros Hcfg Hsdk Hprovider. split.
  - unfold ConfigCheck.checkGoogleOAuthConfig, ConfigCheck.getSession,
      ConfigCheck.signInWithOAuth, Eff.try_catch, Eff.bind, Eff.ret. simpl.
    rewrite Hcfg. simpl.
    destruct (Hsdk (ConfigCheck.testRequest origin)) as [data ->]. reflexivity.
  - unfold Supabase.signInWithGoogle, Auth.signInWithOAuth,
      Eff.try_catch, Eff.bind, Eff.ret. simpl.
    rewrite Hcfg. simpl.
    destruct (Hsdk (Supabase.oauthRequest origin)) as [data ->]. simpl.
    unfold Supabase.classify. rewrite Hprovider. now rewrite orb_true_r.
Qed.

(** X25. The module-level guards agree with the guard of the sign-in:
    the connection test is scheduled exactly when the client counts as
    configured; the client is always created with a non-empty URL and
    key, which are the configured ones when the client is configured. *)
Theorem client_setup_matches_configured (cfg : Auth.Config) :
  ClientSetup.connectionTest cfg = Auth.configured cfg /\
  JS.truthy (ClientSetup.clientUrl cfg) = true /\
  JS.truthy (ClientSetup.clientKey cfg) = true /\
  (Auth.configured cfg = true ->
   Auth.supabaseUrl cfg = Some (ClientSetup.clientUrl cfg) /\
   Auth.supabaseAnonKey cfg = Some (ClientSetup.clientKey cfg)).
Proof.
  unfold ClientSetup.connectionTest, ClientSetup.clientUrl, ClientSetup.clientKey,
    Auth.configured, JS.or_else, JS.truthy_opt, ClientSetup.placeholder_url.
  destruct cfg as [[url|] [key|]]; simpl;
    try (destruct (JS.truthy url) eqn:Hu); try (destruct (JS.truthy key) eqn:Hk);
    simpl; try (destruct (String.eqb url _)); simpl;
    repeat split; try discriminate; auto.
Qed.

(** ** More on profile creation *)

Lemma substring_of_prefix (p r : string) :
  String.substring 0 (String.length p) (p +:+ r) = p.
Proof.
  induction p as [|c p IH].
  - now destruct r.
  - change (String.substring 0 (S (String.length p)) (String c (p +:+ r))
            = String c p).
    simpl. now rewrite IH.
Qed.

Section CallbackFacts.

Import GoogleProfile.

Variable toUpperCase : string -> string.
Variable backend : Backend.

Ltac unfold_callback :=
  unfold handleGoogleCallback, createUserProfileFromGoogle, getSession,
    select_user, insert_user, blocking, record,
    Eff.try_catch, Eff.bind, Eff.ret; simpl.

(** X26. Two users whose ids start with the same 8 characters get the
    same temporary university id, [GOOGLE_] followed by those characters
    in upper case: the id is not unique per user. *)
Theorem university_id_depends_on_first_eight
    (user1 user2 : AuthUser) (first8 rest1 rest2 : string) :
  String.length first8 = 8 ->
  id user1 = first8 +:+ rest1 ->
  id user2 = first8 +:+ rest2 ->
  profile_university_id (profileData toUpperCase user1)
  = "GOOGLE_" +:+ toUpperCase first8 /\
  profile_university_id (profileData toUpperCase user2)
  = profile_university_id (profileData toUpperCase user1).
Proof.
  intros Hlen H1 H2. unfold profileData, JS.substring. simpl.
  rewrite H1, H2, <- Hlen, !substring_of_prefix. split; reflexivity.
Qed.

(** X27. The callback never throws, asks for the session first, looks a
    profile up at most once and inserts at most once, in that order; the
    table afterwards is the table before, or the table before with the
    profile of the session user added under an id that was free. *)
Theorem callback_discipline (w : World) :
  exists (result : CallbackResult) (w' : World) (later : list Request),
    handleGoogleCallback toUpperCase backend w = (Fulfilled result, w') /\
    log w' = log w ++ GetSession :: later /\
    (later = [] \/
     exists user : AuthUser,
       session_of backend user /\
       (later = [SelectUser (id user)] \/
        later = [SelectUser (id user); InsertUser (profileData toUpperCase user)])) /\
    (users w' = users w \/
     exists user : AuthUser,
       session_of backend user /\
       users w !! id user = None /\
       users w' = <[id user := profileData toUpperCase user]> (users w)).
Proof.
  unfold_callback. unfold session_of.
  destruct (getSession_response backend) as [r|reason] eqn:Hr; simpl;
    [| eexists _, _, _; split; [reflexivity |]; simpl; auto].
  destruct (sessionError r) eqn:He; simpl;
    [eexists _, _, _; split; [reflexivity |]; simpl; auto |].
  destruct (session r) as [s|] eqn:Hs; simpl;
    [| eexists _, _, _; split; [reflexivity |]; simpl; auto].
  destruct (user s) as [u|] eqn:Hu; simpl;
    [| eexists _, _, _; split; [reflexivity |]; simpl; auto].
  assert (Hsession : exists (r0 : SessionResponse) (s0 : Session),
    Fulfilled r = Fulfilled r0 /\ sessionError r0 = None /\
    session r0 = Some s0 /\ user s0 = Some u) by (exists r, s; auto).
  destruct (select_fault backend) as [[e|reason]|]; simpl.
  - destruct (String.eqb (PostgrestError.code e) "PGRST116"); simpl.
    + destruct (insert_fault backend) as [[e'|reason']|]; simpl;
        try (destruct (users w !! id u) eqn:Hrow; simpl);
        eexists _, _, _; (split; [reflexivity |]); simpl;
        rewrite <- ?app_assoc; simpl; (split; [reflexivity |]); eauto 10.
    + eexists _, _, _. split; [reflexivity |]. simpl. rewrite <- ?app_assoc.
      split; [reflexivity |]. eauto 10.
  - eexists _, _, _. split; [reflexivity |]. simpl. rewrite <- ?app_assoc.
    split; [reflexivity |]. eauto 10.
  - destruct (users w !! id u) eqn:Hrow; simpl.
    + eexists _, _, _. split; [reflexivity |]. simpl. rewrite <- ?app_assoc.
      split; [reflexivity |]. eauto 10.
    + destruct (insert_fault backend) as [[e'|reason']|]; simpl;
        rewrite ?Hrow; simpl;
        eexists _, _, _; (split; [reflexivity |]); simpl;
        rewrite <- ?app_assoc; simpl; (split; [reflexivity |]); eauto 10.
Qed.

End CallbackFacts.

Section CallbackRoundTrips.

Import GoogleProfile.

Variable toUpperCase : string -> string.
Variable backend : Backend.

Ltac unfold_callback :=
  unfold handleGoogleCallback, createUserProfileFromGoogle, getSession,
    select_user, insert_user, blocking, record,
    Eff.try_catch, Eff.bind, Eff.ret; simpl.

(** X28. [createUserProfileFromGoogle] never throws, whatever the insert
    does: its only effect is that of the one insert call, and its result
    follows the answer to that call.  An answer without error gives
    success; an answer with an error gives failure with that error in
    the [error] field; a rejected call is caught and gives failure with
    what was thrown in the [error] field.  So an error is reported
    exactly when [success] is false. *)
Theorem createUserProfileFromGoogle_never_throws (user : AuthUser) (w : World) :
  exists result : ProfileResult,
    createUserProfileFromGoogle toUpperCase backend user w
    = (Fulfilled result,
       snd (insert_user backend (profileData toUpperCase user) w)) /\
    (profile_success result = true <-> profile_error result = None) /\
    (forall r : QueryResult.t ProfileData,
        fst (insert_user backend (profileData toUpperCase user) w) = Fulfilled r ->
        QueryResult.error r = None ->
        result = mkProfileResult true None) /\
    (forall (r : QueryResult.t ProfileData) (e : PostgrestError.t),
        fst (insert_user backend (profileData toUpperCase user) w) = Fulfilled r ->
        QueryResult.error r = Some e ->
        result = mkProfileResult false (Some (OfDatabase e))) /\
    (forall reason : string,
        fst (insert_user backend (profileData toUpperCase user) w) = Thrown reason ->
        result = mkProfileResult false (Some (OfException reason))).
Proof.
  unfold createUserProfileFromGoogle, Eff.try_catch, Eff.bind, Eff.ret.
  destruct (insert_user backend (profileData toUpperCase user) w)
    as [[[d [e|]]|reason] w'] eqn:Hinsert; simpl;
    eexists; (split; [reflexivity |]);
    (split; [split; [try discriminate; reflexivity | try discriminate; reflexivity] |]);
    repeat split; intros; simpl in *; simplify_eq; simpl in *; simplify_eq;
    reflexivity.
Qed.

(** X29. When the callback reports success, the profile of the session
    user is in the table afterwards, whatever the backend did on the
    way. *)
Theorem success_means_profile_exists
    (w w' : World) (result : CallbackResult) :
  handleGoogleCallback toUpperCase backend w = (Fulfilled result, w') ->
  success result = true ->
  exists user : AuthUser,
    callback_user result = Some user /\
    session_of backend user /\
    is_Some (users w' !! id user).
Proof.
  unfold_callback. unfold session_of.
  destruct (getSession_response backend) as [r|reason] eqn:Hr; simpl;
    [| intros [= <- <-]; discriminate].
  destruct (sessionError r) eqn:He; simpl; [intros [= <- <-]; discriminate |].
  destruct (session r) as [s|] eqn:Hs; simpl; [| intros [= <- <-]; discriminate].
  destruct (user s) as [u|] eqn:Hu; simpl; [| intros [= <- <-]; discriminate].
  assert (Hsession : exists (r0 : SessionResponse) (s0 : Session),
    Fulfilled r = Fulfilled r0 /\ sessionError r0 = None /\
    session r0 = Some s0 /\ user s0 = Some u) by (exists r, s; auto).
  destruct (select_fault backend) as [[e|reason]|]; simpl.
  - destruct (String.eqb (PostgrestError.code e) "PGRST116"); simpl;
      [| intros [= <- <-]; discriminate].
    destruct (insert_fault backend) as [[e'|reason']|]; simpl;
      try (intros [= <- <-]; discriminate).
    destruct (users w !! id u) eqn:Hrow; simpl; intros [= <- <-]; [discriminate |].
    intros _. exists u. simpl. rewrite lookup_insert_eq. eauto.
  - intros [= <- <-]; discriminate.
  - destruct (users w !! id u) eqn:Hrow; simpl.
    + intros [= <- <-] _. exists u. simpl. rewrite Hrow. eauto.
    + destruct (insert_fault backend) as [[e'|reason']|]; simpl;
        try (intros [= <- <-]; discriminate).
      rewrite Hrow. simpl. intros [= <- <-] _. exists u. simpl.
      rewrite lookup_insert_eq. eauto.
Qed.

(** X30. Running the callback twice creates the profile once.  With a
    session that holds a user and a backend that answers from the table,
    a second run finds the profile, sends the session request and the
    lookup only, succeeds and leaves the table as the first run left
    it. *)
Theorem callback_twice_creates_once (user : AuthUser) (w : World) :
  session_of backend user -> healthy backend ->
  let w1 := snd (handleGoogleCallback toUpperCase backend w) in
  is_Some (users w1 !! id user) /\
  handleGoogleCallback toUpperCase backend w1
  = (Fulfilled (mkCallbackResult true (Some user) None),
     mkWorld (users w1) (log w1 ++ [GetSession; SelectUser (id user)])).
Proof.
  intros (r & s & Hr & He & Hs & Hu) [Hsel Hins]. cbv zeta.
  assert (Hsecond : forall w1 : World,
    is_Some (users w1 !! id user) ->
    handleGoogleCallback toUpperCase backend w1
    = (Fulfilled (mkCallbackResult true (Some user) None),
       mkWorld (users w1) (log w1 ++ [GetSession; SelectUser (id user)]))).
  { intros w1 [row Hrow]. unfold_callback.
    repeat (rewrite ?Hr, ?He, ?Hs, ?Hu, ?Hsel, ?Hrow; simpl).
    now rewrite <- !app_assoc. }
  assert (Hfirst :
    is_Some (users (snd (handleGoogleCallback toUpperCase backend w)) !! id user)).
  { unfold_callback.
    repeat (rewrite ?Hr, ?He, ?Hs, ?Hu, ?Hsel; simpl).
    destruct (users w !! id user) eqn:Hrow; simpl; [rewrite Hrow; eauto |].
    repeat (rewrite ?Hins, ?Hrow; simpl). rewrite lookup_insert_eq. eauto. }
  split; [exact Hfirst | now apply Hsecond].
Qed.

End CallbackRoundTrips.

(** ** The further properties on the sample data *)

Lemma fetchData_shows_the_answers_witness :
  Dashboard.schedules_response Sample.populated
  = Fulfilled (QueryResult.mk (Some [Sample.morning_row; Sample.friday_row]) None) /\
  Dashboard.schedules
    (Dashboard.state (snd (Dashboard.fetchData (Some Sample.student)
                             Sample.populated Sample.shown_world)))
  = [Sample.morning; Sample.friday_trip].
Proof.
  split; [reflexivity |].
  destruct (fetchData_shows_the_answers (Some Sample.student) Sample.populated
              Sample.shown_world [Sample.morning_row; Sample.friday_row]
              [Sample.feedback_row] [Sample.complaint_row] eq_refl eq_refl eq_refl)
    as (Hschedules & _).
  rewrite Hschedules. reflexivity.
Defined.

Lemma fetchData_survives_schedules_error_witness :
  Dashboard.schedules_response Sample.schedules_down
  = Fulfilled (QueryResult.mk None (Some Sample.timeout_error)) /\
  Dashboard.schedules
    (Dashboard.state (snd (Dashboard.fetchData (Some Sample.student)
                             Sample.schedules_down Sample.shown_world)))
  = Sample.schedules.
Proof.
  split; [reflexivity |].
  apply (fetchData_survives_schedules_error (Some Sample.student)
           Sample.schedules_down Sample.shown_world None Sample.timeout_error).
  reflexivity.
Defined.

Lemma fetchData_stops_on_missing_schedules_witness :
  Dashboard.schedules_response Sample.schedules_null
  = Fulfilled (QueryResult.mk None None) /\
  Dashboard.requests
    (snd (Dashboard.fetchData (Some Sample.student)
            Sample.schedules_null Sample.shown_world))
  = [Dashboard.SelectSchedules "gender.is.null,gender.eq.Female"].
Proof.
  split; [reflexivity |].
  rewrite (fetchData_stops_on_missing_schedules (Some Sample.student)
             Sample.schedules_null Sample.shown_world eq_refl).
  reflexivity.
Defined.

Lemma fetchData_empties_missing_feedback_witness :
  Dashboard.feedback_response Sample.feedback_null
  = Fulfilled (QueryResult.mk None None) /\
  Dashboard.feedback
    (Dashboard.state (snd (Dashboard.fetchData (Some Sample.student)
                             Sample.feedback_null Sample.shown_world)))
  = [].
Proof.
  split; [reflexivity |].
  apply (fetchData_empties_missing_feedback (Some Sample.student)
           Sample.feedback_null Sample.shown_world [Sample.morning_row]);
    reflexivity.
Defined.

Lemma complaint_row_is_clean_witness :
  In (Dashboard.InsertComplaint
        (Dashboard.complaintRow (Some Sample.student) Sample.long_complaint))
     (Dashboard.requests_of
        (Dashboard.handleComplaintSubmit (Some Sample.student) Sample.accepting)
        (Sample.dashboard Sample.long_complaint)) /\
  ComplaintInsert.title
    (Dashboard.complaintRow (Some Sample.student) Sample.long_complaint)
  <> EmptyString.
Proof.
  assert (Hin :
    In (Dashboard.InsertComplaint
          (Dashboard.complaintRow (Some Sample.student) Sample.long_complaint))
       (Dashboard.requests_of
          (Dashboard.handleComplaintSubmit (Some Sample.student) Sample.accepting)
          (Sample.dashboard Sample.long_complaint)))
    by (left; reflexivity).
  split; [exact Hin |].
  destruct (complaint_row_is_clean (Some Sample.student) Sample.accepting
              (Sample.dashboard Sample.long_complaint) _ Hin)
    as (_ & _ & Htitle & _).
  exact Htitle.
Defined.

Lemma second_submit_is_rejected_witness :
  Dashboard.passes_validation
    (Dashboard.complaintForm (Sample.dashboard Sample.long_complaint)) = true /\
  Dashboard.insert_succeeds Sample.accepting = true /\
  Dashboard.requests_of
    (Dashboard.handleComplaintSubmit (Some Sample.student) Sample.accepting)
    (Dashboard.state_after
       (Dashboard.handleComplaintSubmit (Some Sample.student) Sample.accepting)
       (Sample.dashboard Sample.long_complaint)) = [].
Proof.
  split; [reflexivity |]. split; [reflexivity |].
  apply (second_submit_is_rejected (Some Sample.student) Sample.accepting
           (Sample.dashboard Sample.long_complaint)); reflexivity.
Defined.

Lemma blank_feedback_is_ignored_witness :
  JS.trim (FeedbackForm.feedbackMessage Sample.feedback_blank) = EmptyString /\
  FeedbackForm.run
    (FeedbackForm.handleFeedbackSubmit (Some Sample.student) Sample.feedback_refusing)
    Sample.feedback_blank
  = (Fulfilled tt, FeedbackForm.mkWorld Sample.feedback_blank []).
Proof.
  split; [reflexivity |].
  apply (blank_feedback_is_ignored (Some Sample.student) Sample.feedback_refusing
           Sample.feedback_blank).
  reflexivity.
Defined.

Lemma failed_feedback_is_silent_witness :
  JS.trim (FeedbackForm.feedbackMessage Sample.feedback_typed) = "Great service!" /\
  FeedbackForm.run
    (FeedbackForm.handleFeedbackSubmit (Some Sample.student) Sample.feedback_refusing)
    Sample.feedback_typed
  = (Fulfilled tt,
     FeedbackForm.mkWorld Sample.feedback_typed
       [FeedbackForm.InsertFeedback (Some "u1") "  Great service!  "]).
Proof.
  split; [reflexivity |].
  apply (failed_feedback_is_silent (Some Sample.student) Sample.feedback_refusing
           Sample.feedback_typed).
  - discriminate.
  - intros r [= <-]. discriminate.
Defined.

Lemma sign_in_outcomes_witness :
  Auth.configured Sample.config = true /\
  fst (Supabase.signInWithGoogle Sample.config Sample.origin
         Sample.unreachable_sdk [])
  = Fulfilled (Auth.failure Supabase.msg_unexpected None).
Proof.
  split; [reflexivity |].
  destruct (sign_in_outcomes Sample.config Sample.origin Sample.unreachable_sdk []
              eq_refl) as [_ Hthrown].
  apply (Hthrown "Failed to fetch"). reflexivity.
Defined.

Lemma config_check_reads_only_thrown_errors_witness :
  Auth.configured Sample.config = true /\
  ConfigCheck.getSession_response Sample.provider_off = Fulfilled None /\
  fst (ConfigCheck.checkGoogleOAuthConfig Sample.config Sample.origin
         Sample.provider_off [])
  = Fulfilled (ConfigCheck.mkResult true None).
Proof.
  split; [reflexivity |]. split; [reflexivity |].
  destruct (config_check_reads_only_thrown_errors Sample.config Sample.origin
              Sample.provider_off [] eq_refl eq_refl) as [Hreturned _].
  eapply Hreturned. reflexivity.
Defined.

Lemma check_passes_where_sign_in_needs_setup_witness :
  JS.includes_opt (Auth.message Sample.provider_disabled) "provider" = true /\
  fst (ConfigCheck.checkGoogleOAuthConfig Sample.config Sample.origin
         (ConfigCheck.mkBackend (Fulfilled None)
            (Sample.failing_sdk Sample.provider_disabled)) [])
  = Fulfilled (ConfigCheck.mkResult true None) /\
  fst (Supabase.signInWithGoogle Sample.config Sample.origin
         (Sample.failing_sdk Sample.provider_disabled) [])
  = Fulfilled (Auth.failure Supabase.msg_not_enabled (Some true)).
Proof.
  split; [reflexivity |].
  apply (check_passes_where_sign_in_needs_setup Sample.config Sample.origin
           (Sample.failing_sdk Sample.provider_disabled) Sample.provider_disabled
           [] []).
  - reflexivity.
  - intros req. exists (Auth.mkOAuthData None). reflexivity.
  - reflexivity.
Defined.

Lemma university_id_depends_on_first_eight_witness :
  GoogleProfile.id Sample.google_user <> GoogleProfile.id Sample.twin_user /\
  GoogleProfile.profile_university_id
    (GoogleProfile.profileData JS.ascii_toUpperCase Sample.twin_user)
  = GoogleProfile.profile_university_id
      (GoogleProfile.profileData JS.ascii_toUpperCase Sample.google_user).
Proof.
  split; [discriminate |].
  apply (university_id_depends_on_first_eight JS.ascii_toUpperCase
           Sample.google_user Sample.twin_user "3f2a9c1e"
           "-77aa-4c1b-9d2e-5b6f00c0ffee" "-0000-4000-8000-000000000002");
    reflexivity.
Defined.

Lemma success_means_profile_exists_witness :
  exists user : GoogleProfile.AuthUser,
    GoogleProfile.session_of Sample.working user /\
    is_Some
      (GoogleProfile.users
         (snd (GoogleProfile.handleGoogleCallback JS.ascii_toUpperCase
                 Sample.working Sample.empty_world))
       !! GoogleProfile.id user).
Proof.
  destruct (success_means_profile_exists JS.ascii_toUpperCase Sample.working
              Sample.empty_world
              (snd (GoogleProfile.handleGoogleCallback JS.ascii_toUpperCase
                      Sample.working Sample.empty_world))
              (GoogleProfile.mkCallbackResult true (Some Sample.google_user) None))
    as (user & _ & Hsession & Hrow).
  - vm_compute. reflexivity.
  - reflexivity.
  - exists user. split; assumption.
Defined.

Lemma callback_twice_creates_once_witness :
  GoogleProfile.healthy Sample.working /\
  is_Some
    (GoogleProfile.users
       (snd (GoogleProfile.handleGoogleCallback JS.ascii_toUpperCase
               Sample.working Sample.empty_world))
     !! GoogleProfile.id Sample.google_user).
Proof.
  assert (Hhealthy : GoogleProfile.healthy Sample.working)
    by (split; reflexivity).
  split; [exact Hhealthy |].
  apply (callback_twice_creates_once JS.ascii_toUpperCase Sample.working
           Sample.google_user Sample.empty_world); [| exact Hhealthy].
  eexists _, _. repeat split; reflexivity.
Defined.


(** ** The classification in each copy of the sign-in *)

Lemma profile_classify_spec (error : Auth.AuthError) :
  profile_classified_by_substring error (GoogleProfile.classify error).
Proof.
  unfold profile_classified_by_substring, GoogleProfile.classify. cbv zeta.
  destruct (JS.includes_opt (Auth.message error) "not enabled"
            || JS.includes_opt (Auth.message error) "provider") eqn:H1;
    [apply either_iff in H1 | apply neither_iff in H1]; simpl;
    [repeat split; intros; first [reflexivity | tauto] |].
  destruct (JS.includes_opt (Auth.message error) "redirect"
            || JS.includes_opt (Auth.message error) "url") eqn:H2;
    [apply either_iff in H2 | apply neither_iff in H2]; simpl;
    [repeat split; intros; first [reflexivity | tauto] |].
  destruct (JS.includes_opt (Auth.message error) "client_id"
            || JS.includes_opt (Auth.message error) "client") eqn:H3;
    [apply either_iff in H3 | apply neither_iff in H3]; simpl;
    repeat split; intros; first [reflexivity | tauto].
Qed.

(** C4, as amended.  When the configured client gets an error back from
    the OAuth call, each copy of [signInWithGoogle] returns the
    classification of the error message by substring.  In
    [src/lib/supabase.ts] the checks are not enabled/provider, then
    redirect/url, then client_id/client, then unauthorized/invalid, each
    selecting its fixed explanation with [needsSetup: true], and a
    message matching none gives the generic failure without
    [needsSetup].  The copy with profile creation makes the first three
    checks only, in the same order and with its own texts; every other
    message, one with [unauthorized] or [invalid] included, gives its
    generic failure without [needsSetup]. *)
Theorem signInWithGoogle_classifies_per_copy
    (cfg : Auth.Config) (origin : string)
    (sdk : Auth.OAuthRequest -> Awaited Auth.OAuthResponse)
    (error : Auth.AuthError) (calls : list Auth.OAuthRequest) :
  Auth.configured cfg = true ->
  (forall r : Auth.OAuthResponse,
      sdk (Supabase.oauthRequest origin) = Fulfilled r ->
      Auth.error r = Some error ->
      exists result : Auth.SignInResult,
        Supabase.signInWithGoogle cfg origin sdk calls
        = (Fulfilled result, calls ++ [Supabase.oauthRequest origin]) /\
        Supabase.classified_by_substring error result) /\
  (forall r : Auth.OAuthResponse,
      sdk (GoogleProfile.oauthRequest origin) = Fulfilled r ->
      Auth.error r = Some error ->
      exists result : Auth.SignInResult,
        GoogleProfile.signInWithGoogle cfg origin sdk calls
        = (Fulfilled result, calls ++ [GoogleProfile.oauthRequest origin]) /\
        profile_classified_by_substring error result).
Proof.
  intros Hcfg. split; intros r Hsdk Herr.
  - exists (Supabase.classify error). split; [| apply classify_spec].
    unfold Supabase.signInWithGoogle, Eff.try_catch, Eff.bind, Eff.ret,
      Auth.signInWithOAuth.
    rewrite Hcfg. simpl. now rewrite Hsdk, Herr.
  - exists (GoogleProfile.classify error). split; [| apply profile_classify_spec].
    unfold GoogleProfile.signInWithGoogle, Eff.try_catch, Eff.bind, Eff.ret,
      Auth.signInWithOAuth.
    rewrite Hcfg. simpl. now rewrite Hsdk, Herr.
Qed.

(** An error that mentions [invalid] on the sample endpoint: the theorem
    applies to both copies. *)
Lemma signInWithGoogle_classifies_per_copy_witness :
  Auth.configured Sample.config = true /\
  (exists result : Auth.SignInResult,
      Supabase.signInWithGoogle Sample.config Sample.origin
        (Sample.failing_sdk Sample.invalid_grant) []
      = (Fulfilled result, [] ++ [Supabase.oauthRequest Sample.origin]) /\
      Supabase.classified_by_substring Sample.invalid_grant result) /\
  (exists result : Auth.SignInResult,
      GoogleProfile.signInWithGoogle Sample.config Sample.origin
        (Sample.failing_sdk Sample.invalid_grant) []
      = (Fulfilled result, [] ++ [GoogleProfile.oauthRequest Sample.origin]) /\
      profile_classified_by_substring Sample.invalid_grant result).
Proof.
  split; [reflexivity |].
  destruct (signInWithGoogle_classifies_per_copy Sample.config Sample.origin
              (Sample.failing_sdk Sample.invalid_grant) Sample.invalid_grant []
              eq_refl) as [Hsupabase Hprofile].
  split.
  - apply (Hsupabase (Auth.mkOAuthResponse (Auth.mkOAuthData None)
                        (Some Sample.invalid_grant))); reflexivity.
  - apply (Hprofile (Auth.mkOAuthResponse (Auth.mkOAuthData None)
                       (Some Sample.invalid_grant))); reflexivity.
Defined.

(** The copy with profile creation on an error whose message is
    [invalid request: bad token]: the client is configured, the message
    contains [invalid] and none of the words of the first three checks,
    and the function returns the generic failure without [needsSetup],
    not an explanation of its own with [needsSetup: true].  On an error
    that mentions [provider] its text is not the one of
    [src/lib/supabase.ts] either. *)
Lemma profile_copy_has_no_invalid_check :
  Auth.configured Sample.config = true /\
  JS.includes_opt (Auth.message Sample.invalid_grant) "invalid" = true /\
  JS.includes_opt (Auth.message Sample.invalid_grant) "not enabled"
  || JS.includes_opt (Auth.message Sample.invalid_grant) "provider" = false /\
  JS.includes_opt (Auth.message Sample.invalid_grant) "redirect"
  || JS.includes_opt (Auth.message Sample.invalid_grant) "url" = false /\
  JS.includes_opt (Auth.message Sample.invalid_grant) "client_id"
  || JS.includes_opt (Auth.message Sample.invalid_grant) "client" = false /\
  GoogleProfile.signInWithGoogle Sample.config Sample.origin
    (Sample.failing_sdk Sample.invalid_grant) []
  = (Fulfilled
       (Auth.mkSignInResult None
          (Some (Auth.mkErrorMessage
             "Google Sign-In failed: invalid request: bad token. Please try again or contact support."))
          None),
     [GoogleProfile.oauthRequest Sample.origin]) /\
  GoogleProfile.signInWithGoogle Sample.config Sample.origin
    (Sample.failing_sdk Sample.provider_disabled) []
  = (Fulfilled
       (Auth.mkSignInResult None
          (Some (Auth.mkErrorMessage
             "Google Sign-In is not enabled. Please contact the administrator to enable Google OAuth in Supabase."))
          (Some true)),
     [GoogleProfile.oauthRequest Sample.origin]).
Proof. repeat split. Qed.
